(** * Bengaluru GIS preprocessing pipeline: a shallow embedding

    This development models [scripts/preprocess_data.py], the batch job
    that turns the raw ward, school, tree and elevation layers into the
    per-ward statistics served by the web application.

    The script is a straight-line program over geopandas, rasterio, numpy
    and the [json] module.  Its own logic (which column is read, which
    fallback is taken, what is caught, what is grouped and in which order
    the stages run) is translated definition by definition; the geometric
    and raster primitives of the libraries it calls, and numpy's sum, are
    the fields of the interface [GeoStack]; the simplification of a
    geometry, which only the last stage applies, is a parameter of that
    stage.  Numbers are
    modelled as the script has them: identifiers and counts are Python
    integers ([Z]), elevations are binary64 floats ([PrimFloat.float]).
    The progress lines the script prints are left out; the warnings of
    its [except] branch are kept. *)

From Stdlib Require Import ZArith Zpower List String Ascii Bool Lia.
From Stdlib Require Import Floats Uint63.
From Stdlib Require Import DecimalString DecimalFacts DecimalPos DecimalN DecimalZ.
From stdpp Require Import base option list gmap strings sorting.

Local Open Scope Z_scope.
Local Open Scope string_scope.

(** ** Python strings

    A [str] is modelled by [string]: a sequence of code points below 256,
    each an [ascii].  All literals of the script are of that kind. *)

Module PyStr.

(** [str.isspace] on one code point below 256: TAB..CR, FS..US, space,
    NEL (0x85) and NBSP (0xa0). *)
Definition isspace (c : ascii) : bool :=
  let n := N_of_ascii c in
  ((9 <=? n) && (n <=? 13) || (28 <=? n) && (n <=? 32)
   || (n =? 133) || (n =? 160))%N.

Fixpoint lstrip (s : string) : string :=
  match s with
  | EmptyString => EmptyString
  | String c s' => if isspace c then lstrip s' else s
  end.

Fixpoint rstrip (s : string) : string :=
  match s with
  | EmptyString => EmptyString
  | String c s' =>
      match rstrip s' with
      | EmptyString => if isspace c then EmptyString else String c EmptyString
      | r => String c r
      end
  end.

(** [s.strip()] *)
Definition strip (s : string) : string := rstrip (lstrip s).

(** [str(n)] for an integer [n]. *)
Definition of_int (n : Z) : string := NilZero.string_of_int (Z.to_int n).

End PyStr.

(** ** Exceptions and results *)

Inductive exn : Type :=
  | DataSourceError (path : string)      (* gpd.read_file could not read *)
  | RasterioIOError (path : string)      (* rasterio.open could not read *)
  | ValueError (msg : string)
  | TypeError (msg : string)
  | AttributeError (msg : string)
  | FileNotFoundError (msg : string).

Inductive result (A : Type) : Type :=
  | Ok (a : A)
  | Raise (e : exn).
Arguments Ok {A} a.
Arguments Raise {A} e.

Definition is_ok {A} (r : result A) : bool :=
  match r with Ok _ => true | Raise _ => false end.

Definition bind {A B} (r : result A) (k : A -> result B) : result B :=
  match r with
  | Ok a => k a
  | Raise e => Raise e
  end.

Notation "'do' x <- r ; k" := (bind r (fun x => k))
  (at level 10, x name, r at level 100, k at level 200,
   format "'[v' 'do'  x  <-  r ;  '/' k ']'").

(** Running a computation on every element, stopping at the first raise. *)
Fixpoint mapM {A B} (f : A -> result B) (l : list A) : result (list B) :=
  match l with
  | [] => Ok []
  | a :: l' => do b <- f a; do bs <- mapM f l'; Ok (b :: bs)
  end.

(** ** Attribute values

    A property of a feature as the vector readers deliver it: a missing
    value, an integer or a string (numbers with a fractional part,
    booleans and nested values are left out). *)

Inductive cell : Type :=
  | CNone
  | CInt (n : Z)
  | CStr (s : string).

#[global] Instance cell_eq_dec : EqDecision cell.
Proof. solve_decision. Defined.

(** ** Python dictionaries with string keys

    Insertion-ordered: assigning to a present key keeps its place and
    replaces its value, assigning to a new key appends. *)

Module PyDict.

Definition t (V : Type) : Type := list (string * V).

Fixpoint set {V} (k : string) (v : V) (d : t V) : t V :=
  match d with
  | [] => [(k, v)]
  | (k', v') :: d' =>
      if decide (k = k') then (k', v) :: d' else (k', v') :: set k v d'
  end.

(** [dict(pairs)], and so [dict(zip(keys, values))]. *)
Definition of_pairs {V} (pairs : list (string * V)) : t V :=
  foldl (fun d kv => set kv.1 kv.2 d) [] pairs.

Definition keys {V} (d : t V) : list string := map fst d.
Definition values {V} (d : t V) : list V := map snd d.

(** [sum(d.values())] *)
Definition sum_values (d : t Z) : Z := foldr Z.add 0 (values d).

End PyDict.

(** ** The [json] module, for objects that map strings to integers *)

Module Json.

Definition dquote : ascii := "034"%char.
Definition backslash : ascii := "092"%char.

Definition hex_digit (n : N) : ascii :=
  match n with
  | 0 => "0" | 1 => "1" | 2 => "2" | 3 => "3" | 4 => "4" | 5 => "5"
  | 6 => "6" | 7 => "7" | 8 => "8" | 9 => "9" | 10 => "a" | 11 => "b"
  | 12 => "c" | 13 => "d" | 14 => "e" | _ => "f"
  end%N%char.

(** The escape of one character under [ensure_ascii=True]. *)
Definition escape_char (c : ascii) : string :=
  let n := N_of_ascii c in
  if (n =? 34)%N then String backslash (String dquote "")
  else if (n =? 92)%N then String backslash (String backslash "")
  else if (n =? 10)%N then String backslash "n"
  else if (n =? 13)%N then String backslash "r"
  else if (n =? 9)%N then String backslash "t"
  else if (n =? 8)%N then String backslash "b"
  else if (n =? 12)%N then String backslash "f"
  else if ((32 <=? n) && (n <=? 126))%N then String c ""
  else String backslash
         (String "u" (String "0" (String "0"
            (String (hex_digit (n / 16)) (String (hex_digit (n mod 16)) ""))))).

Fixpoint escape (s : string) : string :=
  match s with
  | EmptyString => EmptyString
  | String c s' => escape_char c ++ escape s'
  end.

Definition dumps_str (s : string) : string :=
  String dquote (escape s ++ String dquote "").

Definition dumps_item (kv : string * Z) : string :=
  dumps_str kv.1 ++ ": " ++ PyStr.of_int kv.2.

Fixpoint join_items (items : list (string * Z)) : string :=
  match items with
  | [] => ""
  | [kv] => dumps_item kv
  | kv :: rest => dumps_item kv ++ ", " ++ join_items rest
  end.

(** [json.dumps(d)] for a dictionary [d] from [str] to [int]. *)
Definition dumps (d : PyDict.t Z) : string :=
  "{" ++ join_items d ++ "}".

(** *** Decoding

    The script only encodes.  The decoder is the reader's side, as the
    [json] module has it: whitespace between tokens, string literals
    with their escapes, integers without leading zeros, and the last
    value kept for a key that occurs twice. *)

Definition is_ws (c : ascii) : bool :=
  let n := N_of_ascii c in
  ((n =? 32) || (n =? 9) || (n =? 10) || (n =? 13))%N.

Fixpoint skip_ws (s : string) : string :=
  match s with
  | EmptyString => EmptyString
  | String c s' => if is_ws c then skip_ws s' else s
  end.

Definition unhex (c : ascii) : option N :=
  let n := N_of_ascii c in
  if ((48 <=? n) && (n <=? 57))%N then Some (n - 48)%N
  else if ((97 <=? n) && (n <=? 102))%N then Some (n - 87)%N
  else if ((65 <=? n) && (n <=? 70))%N then Some (n - 55)%N
  else None.

(** The character a one-letter escape stands for. *)
Definition unescape1 (e : ascii) : option ascii :=
  let n := N_of_ascii e in
  if (n =? 34)%N then Some dquote
  else if (n =? 92)%N then Some backslash
  else if (n =? 47)%N then Some "/"%char
  else if (n =? 98)%N then Some (ascii_of_N 8)
  else if (n =? 102)%N then Some (ascii_of_N 12)
  else if (n =? 110)%N then Some (ascii_of_N 10)
  else if (n =? 114)%N then Some (ascii_of_N 13)
  else if (n =? 116)%N then Some (ascii_of_N 9)
  else None.

Definition unescape_u (h1 h2 h3 h4 : ascii) : option ascii :=
  match unhex h1, unhex h2, unhex h3, unhex h4 with
  | Some a, Some b, Some c, Some d =>
      let n := (((a * 16 + b) * 16 + c) * 16 + d)%N in
      if (n <? 256)%N then Some (ascii_of_N n) else None
  | _, _, _, _ => None
  end.

(** The text of a string literal after its opening quote: the decoded
    string and what follows the closing quote. *)
Fixpoint scan_string (s : string) : option (string * string) :=
  match s with
  | EmptyString => None
  | String c s1 =>
      if (N_of_ascii c =? 34)%N then Some (EmptyString, s1)
      else if (N_of_ascii c =? 92)%N then
        match s1 with
        | EmptyString => None
        | String e s2 =>
            if (N_of_ascii e =? 117)%N then
              match s2 with
              | String h1 (String h2 (String h3 (String h4 s6))) =>
                  match unescape_u h1 h2 h3 h4, scan_string s6 with
                  | Some d, Some (r, rest) => Some (String d r, rest)
                  | _, _ => None
                  end
              | _ => None
              end
            else
              match unescape1 e, scan_string s2 with
              | Some d, Some (r, rest) => Some (String d r, rest)
              | _, _ => None
              end
        end
      else if (N_of_ascii c <? 32)%N then None
      else
        match scan_string s1 with
        | Some (r, rest) => Some (String c r, rest)
        | None => None
        end
  end.

Definition digit_of (c : ascii) : option (Decimal.uint -> Decimal.uint) :=
  match N_of_ascii c with
  | 48 => Some Decimal.D0 | 49 => Some Decimal.D1 | 50 => Some Decimal.D2
  | 51 => Some Decimal.D3 | 52 => Some Decimal.D4 | 53 => Some Decimal.D5
  | 54 => Some Decimal.D6 | 55 => Some Decimal.D7 | 56 => Some Decimal.D8
  | 57 => Some Decimal.D9 | _ => None
  end%N.

(** The longest run of digits a string starts with. *)
Fixpoint read_digits (s : string) : Decimal.uint * string :=
  match s with
  | EmptyString => (Decimal.Nil, EmptyString)
  | String c s' =>
      match digit_of c with
      | Some mk => let '(d, rest) := read_digits s' in (mk d, rest)
      | None => (Decimal.Nil, s)
      end
  end.

(** [0|[1-9][0-9]*] *)
Definition scan_nat (s : string) : option (Decimal.uint * string) :=
  match s with
  | EmptyString => None
  | String c s' =>
      if (N_of_ascii c =? 48)%N then Some (Decimal.D0 Decimal.Nil, s')
      else match digit_of c with
           | Some _ => Some (read_digits s)
           | None => None
           end
  end.

(** A number is an integer when no fraction or exponent follows. *)
Definition starts_fraction (s : string) : bool :=
  match s with
  | String c _ =>
      let n := N_of_ascii c in ((n =? 46) || (n =? 101) || (n =? 69))%N
  | EmptyString => false
  end.

Definition scan_int (s : string) : option (Z * string) :=
  let signed :=
    match s with
    | String c s' =>
        if (N_of_ascii c =? 45)%N
        then match scan_nat s' with
             | Some (d, rest) => Some (Z.of_int (Decimal.Neg d), rest)
             | None => None
             end
        else match scan_nat s with
             | Some (d, rest) => Some (Z.of_int (Decimal.Pos d), rest)
             | None => None
             end
    | EmptyString => None
    end in
  match signed with
  | Some (n, rest) => if starts_fraction rest then None else Some (n, rest)
  | None => None
  end.

(** What may follow the text of an integer: no digit, and nothing that
    would turn the number into a float. *)
Definition ends_number (tail : string) : Prop :=
  match tail with
  | EmptyString => True
  | String c _ => digit_of c = None /\ starts_fraction tail = false
  end.

(** What follows a member of an object: a comma or the closing brace. *)
Definition closes_member (tail : string) : Prop :=
  exists t, tail = String "," t \/ tail = String "}" t.

(** One ["key": value] pair, the opening quote of the key being next. *)
Definition scan_member (s : string) : option ((string * Z) * string) :=
  match s with
  | String c s1 =>
      if (N_of_ascii c =? 34)%N then
        match scan_string s1 with
        | Some (k, s2) =>
            match skip_ws s2 with
            | String colon s3 =>
                if (N_of_ascii colon =? 58)%N then
                  match scan_int (skip_ws s3) with
                  | Some (v, s4) => Some ((k, v), skip_ws s4)
                  | None => None
                  end
                else None
            | EmptyString => None
            end
        | None => None
        end
      else None
  | EmptyString => None
  end.

(** The members of an object after its first one is known to exist; the
    fuel bounds the number of members. *)
Fixpoint scan_members (fuel : nat) (s : string)
  : option (list (string * Z) * string) :=
  match fuel with
  | O => None
  | S fuel' =>
      match scan_member s with
      | Some (kv, String c s1) =>
          if (N_of_ascii c =? 125)%N then Some ([kv], s1)
          else if (N_of_ascii c =? 44)%N then
            match scan_members fuel' (skip_ws s1) with
            | Some (kvs, rest) => Some (kv :: kvs, rest)
            | None => None
            end
          else None
      | _ => None
      end
  end.

(** [json.loads(s)] when [s] denotes an object whose values are all
    integers; [None] stands for a decoding error or another kind of
    document. *)
Definition loads (s : string) : option (PyDict.t Z) :=
  match skip_ws s with
  | String c s1 =>
      if (N_of_ascii c =? 123)%N then
        match skip_ws s1 with
        | String c2 s2 =>
            if (N_of_ascii c2 =? 125)%N then
              match skip_ws s2 with
              | EmptyString => Some []
              | _ => None
              end
            else
              match scan_members (String.length s) (skip_ws s1) with
              | Some (kvs, rest) =>
                  match skip_ws rest with
                  | EmptyString => Some (PyDict.of_pairs kvs)
                  | _ => None
                  end
              | None => None
              end
        | EmptyString => None
        end
      else None
  | EmptyString => None
  end.

End Json.

(** ** The libraries the script calls

    One field per primitive of shapely, pyproj, rasterio, numpy and the
    Python runtime that the script uses and does not implement. *)

Class GeoStack : Type := {
  (** the value of a geometry cell: a shapely geometry or, for a feature
      without geometry, [None]; [has_geometry] tells the two apart, and
      the other primitives take a cell as geopandas and shapely 2 do (a
      missing geometry stays missing, lies within nothing and is skipped
      by a union).  [geom_type] is [geom.geom_type]; for a missing
      geometry it is no name of a geometry type. *)
  Geometry : Type;
  has_geometry : Geometry -> bool;
  geom_type : Geometry -> string;
  (** coordinate reference systems and pyproj's reprojection of one
      geometry from a source to a target system *)
  CRS : Type;
  epsg4326 : CRS;
  transform : CRS -> CRS -> Geometry -> Geometry;
  (** [a.within(b)]: [a] lies in [b] and their interiors meet *)
  within : Geometry -> Geometry -> bool;
  (** [g.buffer(0)] and [shapely.ops.unary_union] *)
  buffer0 : Geometry -> Geometry;
  unary_union : list Geometry -> Geometry;
  (** the pixel grid of a raster together with its affine transform;
      [mask data dataset_nodata shapes nodata] is
      [rasterio.mask.mask(dataset, shapes, crop=True, nodata=nodata)[0]]
      for the shapes [mapping(g)] of the geometries [g] given
      ([shapely.geometry.mapping] changes the representation of a
      geometry, and raises when there is none), and [band0 img] is
      [img[0].astype("float64")], row by row *)
  RasterData : Type;
  mask : RasterData -> option float -> list Geometry -> option float ->
         result RasterData;
  band0 : RasterData -> list float;
  (** the builtin [int] applied to a [str]; [None] when it raises *)
  int_of_str : string -> option Z;
  (** [np.sum] of a float64 array, its cells in row-major order.  In
      which order numpy adds them (pairwise, in blocks) is the
      library's; a sum of zeros is zero in every order. *)
  np_sum : list float -> float;
  np_sum_zeros : forall band : list float,
    Forall (fun c => c = zero) band -> np_sum band = zero;
}.

(** ** Paths and constants of the script *)

Definition WARDS_RAW : string := "data/raw/BBMP.geojson".
Definition SCHOOLS_RAW : string := "data/raw/schools_osm.geojson".
Definition DEM_RAW : string := "data/raw/dem_merged.tif".
Definition TREE_FILES : list string :=
  [ "data/raw/blr_east_zone_trees_11_2024.kml";
    "data/raw/blr_south_zone_trees_11_2024.kml";
    "data/raw/blr_west_zone_trees_11_2024.kml" ].

(** [SIMPLIFY_TOLERANCE = 0.0001], the binary64 nearest to it. *)
Definition SIMPLIFY_TOLERANCE : float := 0x1.a36e2eb1c432dp-14%float.

Section Pipeline.
Context `{GS : GeoStack}.

(** ** Vector layers (GeoDataFrames) *)

Record feature : Type := {
  props : gmap string cell;
  geometry : Geometry;
}.

(** [columns] lists the attribute columns, the geometry column apart. *)
Record layer : Type := {
  crs : option CRS;
  columns : list string;
  features : list feature;
}.

(** [row[c]]: a feature without the property holds a missing value. *)
Definition col (f : feature) (c : string) : cell :=
  default CNone (props f !! c).

Definition has_column (c : string) (gdf : layer) : bool :=
  bool_decide (c ∈ columns gdf).

Definition set_geometry (g : Geometry) (f : feature) : feature :=
  {| props := props f; geometry := g |}.

(** [gdf.to_crs(epsg=...)]: a layer without a reference system cannot be
    reprojected. *)
Definition to_crs (target : CRS) (gdf : layer) : result layer :=
  match crs gdf with
  | None => Raise (ValueError "Cannot transform naive geometries")
  | Some c =>
      Ok {| crs := Some target;
            columns := columns gdf;
            features :=
              map (fun f => set_geometry (transform c target (geometry f)) f)
                  (features gdf) |}
  end.

(** ** Rasters and the file system *)

Record raster : Type := {
  r_crs : option CRS;
  r_nodata : option float;
  r_data : RasterData;
}.

Inductive file : Type :=
  | VectorFile (gdf : layer)
  | RasterFile (r : raster)
  | OtherFile.

(** The raw-data directory: a path that is no key does not exist. *)
Definition filesystem : Type := gmap string file.

Definition path_exists (fs : filesystem) (p : string) : bool :=
  bool_decide (is_Some (fs !! p)).

(** [gpd.read_file(p)] *)
Definition read_file (fs : filesystem) (p : string) : result layer :=
  match fs !! p with
  | Some (VectorFile gdf) => Ok gdf
  | _ => Raise (DataSourceError p)
  end.

(** [rasterio.open(p)] *)
Definition rasterio_open (fs : filesystem) (p : string) : result raster :=
  match fs !! p with
  | Some (RasterFile r) => Ok r
  | _ => Raise (RasterioIOError p)
  end.

(** ** 1) Wards *)

Record ward : Type := {
  ward_id : Z;
  ward_name : cell;
  w_geometry : Geometry;
}.

(** One element of [series.astype(int)]. *)
Definition astype_int (c : cell) : result Z :=
  match c with
  | CInt n => Ok n
  | CStr s =>
      match int_of_str s with
      | Some n => Ok n
      | None => Raise (ValueError "invalid literal for int()")
      end
  | CNone => Raise (TypeError "int() argument must not be None")
  end.

(** One element of [series.astype(str)]. *)
Definition astype_str (c : cell) : string :=
  match c with
  | CStr s => s
  | CInt n => PyStr.of_int n
  | CNone => "None"
  end.

(** Lines 54-57. *)
Definition assign_ward_ids (gdf : layer) : result (list Z) :=
  if has_column "KGISWardNo" gdf
  then mapM (fun f => astype_int (col f "KGISWardNo")) (features gdf)
  else Ok (imap (fun i _ => Z.of_nat i + 1) (features gdf)).

(** Lines 59-62. *)
Definition assign_ward_names (gdf : layer) (ids : list Z) : list cell :=
  if has_column "KGISWardName" gdf
  then map (fun f => col f "KGISWardName") (features gdf)
  else map (fun i => CStr ("Ward " ++ PyStr.of_int i)) ids.

Definition make_wards (gdf : layer) (ids : list Z) (names : list cell)
  : list ward :=
  zip_with (fun f idn =>
              {| ward_id := idn.1; ward_name := idn.2;
                 w_geometry := geometry f |})
           (features gdf) (zip ids names).

(** Lines 48-62. *)
Definition load_wards (fs : filesystem) : result (list ward) :=
  do gdf <- read_file fs WARDS_RAW;
  do gdf <- to_crs epsg4326 gdf;
  do ids <- assign_ward_ids gdf;
  Ok (make_wards gdf ids (assign_ward_names gdf ids)).

(** ** 2) Trees *)

Record tree : Type := {
  tree_type : string;
  t_geometry : Geometry;
}.

(** Lines 76-81: the column is chosen once per file. *)
Definition normalize_tree_type (gdf : layer) : list tree :=
  let from c :=
    map (fun f => {| tree_type := PyStr.strip (astype_str (col f c));
                     t_geometry := geometry f |}) (features gdf) in
  if has_column "TreeName" gdf then from "TreeName"
  else if has_column "tree_type" gdf then from "tree_type"
  else map (fun f => {| tree_type := "unknown";
                        t_geometry := geometry f |}) (features gdf).

(** The body of the [try] of lines 72-83. *)
Definition load_tree_file (fs : filesystem) (tf : string)
  : result (list tree) :=
  do gdf <- read_file fs tf;
  do gdf <- to_crs epsg4326 gdf;
  Ok (normalize_tree_type gdf).

(** A line printed by the [except] branch of line 85. *)
Record warning : Type := ErrorReading { w_file : string; w_exn : exn }.

(** Lines 68-85: the loop, threading [tree_layers] and the warnings
    printed so far. *)
Fixpoint tree_loop (fs : filesystem) (files : list string)
    (tree_layers : list (list tree)) (out : list warning)
  : list (list tree) * list warning :=
  match files with
  | [] => (tree_layers, out)
  | tf :: rest =>
      if path_exists fs tf then
        match load_tree_file fs tf with
        | Ok gdf => tree_loop fs rest (tree_layers ++ [gdf]) out
        | Raise e => tree_loop fs rest tree_layers (out ++ [ErrorReading tf e])
        end
      else tree_loop fs rest tree_layers out
  end.

(** Lines 68-91. *)
Definition load_trees_from (fs : filesystem) (files : list string)
  : list warning * result (list tree) :=
  let '(tree_layers, out) := tree_loop fs files [] [] in
  (out,
   match tree_layers with
   | [] => Raise (FileNotFoundError "No valid tree files found")
   | _ => Ok (concat tree_layers)
   end).

Definition load_trees (fs : filesystem) : list warning * result (list tree) :=
  load_trees_from fs TREE_FILES.

(** What one source file contributes to the point set, and what it makes
    the loader print. *)
Definition loaded_layer (fs : filesystem) (tf : string)
  : option (list tree) :=
  if path_exists fs tf then
    match load_tree_file fs tf with
    | Ok gdf => Some gdf
    | Raise _ => None
    end
  else None.

Definition warning_of (fs : filesystem) (tf : string) : option warning :=
  if path_exists fs tf then
    match load_tree_file fs tf with
    | Ok _ => None
    | Raise e => Some (ErrorReading tf e)
    end
  else None.

(** ** 3) Schools *)

Definition is_point (f : feature) : bool :=
  bool_decide (geom_type (geometry f) ∈ ["Point"; "MultiPoint"]).

(** Lines 98-100. *)
Definition load_schools (fs : filesystem) : result (list feature) :=
  do gdf <- read_file fs SCHOOLS_RAW;
  do gdf <- to_crs epsg4326 gdf;
  Ok (filter (fun f => is_point f) (features gdf)).

(** ** 4) Clip DEM *)

(** [wards.to_crs(src.crs)]: the ward layer is in EPSG:4326 by now; a
    raster without a reference system gives nothing to project to. *)
Definition wards_to_crs (target : option CRS) (wards : list ward)
  : result (list ward) :=
  match target with
  | None => Raise (ValueError "Must pass either crs or epsg")
  | Some c =>
      Ok (map (fun w => {| ward_id := ward_id w; ward_name := ward_name w;
                           w_geometry := transform epsg4326 c (w_geometry w) |})
              wards)
  end.

(** Lines 107-127: the raster written to [dem_clipped.tif]. *)
Definition clip_dem (fs : filesystem) (wards : list ward) : result raster :=
  do src <- rasterio_open fs DEM_RAW;
  do wards_dem <- wards_to_crs (r_crs src) wards;
  let geoms := map (fun w => buffer0 (w_geometry w)) wards_dem in
  let geom := [unary_union geoms] in
  do out_image <- mask (r_data src) (r_nodata src) geom (r_nodata src);
  Ok {| r_crs := r_crs src; r_nodata := r_nodata src; r_data := out_image |}.

(** ** 5) Average elevation per ward *)

(** Lines 143-144: [band[band == nodata] = np.nan]. *)
Definition replace_nodata (nodata : option float) (band : list float)
  : list float :=
  match nodata with
  | Some nd => map (fun c => if PrimFloat.eqb c nd then nan else c) band
  | None => band
  end.

Definition is_valid (c : float) : bool := negb (PrimFloat.is_nan c).

(** The count of cells as the division takes it: the float64 nearest to
    an integer of 63 bits. *)
Definition float_of_count (n : nat) : float :=
  PrimFloat.of_uint63 (Uint63.of_Z (Z.of_nat n)).

(** [np.nanmean(band)], as numpy computes it for a float64 array: the
    NaN cells are set to zero, [np.sum] adds all cells, and the total is
    divided by the number of cells that are not NaN. *)
Definition nanmean (band : list float) : float :=
  let arr := map (fun c => if PrimFloat.is_nan c then zero else c) band in
  let cnt := length (filter (fun c => is_valid c) band) in
  PrimFloat.div (np_sum arr) (float_of_count cnt).

(** Lines 140-148: the [try] statement of one row, the value it stores
    under the row's [ward_id]. *)
Definition ward_mean (src : raster) (w : ward) : option float :=
  match mask (r_data src) (r_nodata src) [w_geometry w] (r_nodata src) with
  | Ok out =>
      let band := replace_nodata (r_nodata src) (band0 out) in
      let mean_val := nanmean band in
      if PrimFloat.is_nan mean_val then None else Some mean_val
  | Raise _ => None
  end.



(** Line 139: [mapping(row.geometry)].  It stands before the [try], so
    what it raises for a row without geometry is not caught. *)
Definition row_mapping (row : ward) : result unit :=
  if has_geometry (w_geometry row) then Ok tt
  else Raise (AttributeError
                "'NoneType' object has no attribute '__geo_interface__'").

(** Lines 138-148: the loop over the rows, threading [avg_elevs]; the
    exception of line 139 ends it, and the run. *)
Fixpoint avg_elevs_rows (src : raster) (rows : list ward)
    (avg_elevs : gmap Z (option float)) : result (gmap Z (option float)) :=
  match rows with
  | [] => Ok avg_elevs
  | row :: rest =>
      do geom <- row_mapping row;
      avg_elevs_rows src rest (<[ward_id row := ward_mean src row]> avg_elevs)
  end.

(** The dictionary [avg_elevs] of a loop that runs to its end: one
    assignment per row, in row order. *)
Definition avg_elevs_loop (src : raster) (wards_dem : list ward)
  : gmap Z (option float) :=
  foldl (fun d w => <[ward_id w := ward_mean src w]> d) ∅ wards_dem.

(** Lines 134-148. *)
Definition zonal_stats (src : raster) (wards : list ward)
  : result (gmap Z (option float)) :=
  do wards_dem <- wards_to_crs (r_crs src) wards;
  avg_elevs_rows src wards_dem ∅.

(** ** 6) Spatial joins *)

(** The rows [gpd.sjoin(left, wards, how="left", predicate="within")]
    makes of one left row: one per ward the geometry lies within, or one
    without ward.  (pandas holds the joined [ward_id] column as binary64
    once a row has no ward; identifiers below 2^53 are exact there, and
    the model keeps the integers.) *)
Definition join_row {A} (geom : A -> Geometry) (wards : list ward) (a : A)
  : list (A * option Z) :=
  match filter (fun w => within (geom a) (w_geometry w)) wards with
  | [] => [(a, None)]
  | ws => map (fun w => (a, Some (ward_id w))) ws
  end.

Definition sjoin_within {A} (geom : A -> Geometry) (left : list A)
    (wards : list ward) : list (A * option Z) :=
  concat (map (join_row geom wards) left).

(** The wards a geometry lies within, and whether there is one. *)
Definition wards_around (wards : list ward) (g : Geometry) : list ward :=
  filter (fun w => within g (w_geometry w)) wards.

Definition in_some_ward (wards : list ward) (g : Geometry) : bool :=
  existsb (fun w => within g (w_geometry w)) wards.

(** ** 7) Aggregations *)

(** [df.dropna(subset=["ward_id"])] *)
Definition dropna {A} (rows : list (A * option Z)) : list (A * Z) :=
  omap (fun r => match r.2 with Some wid => Some (r.1, wid) | None => None end)
       rows.

(** [df.groupby(keys).size()]: one row per key that occurs, in key
    order, with the number of its occurrences. *)
Definition groupby_size {K} `{EqDecision K} (R : relation K)
    `{forall x y, Decision (R x y)} (ks : list K) : list (K * Z) :=
  map (fun k => (k, Z.of_nat (length (filter (fun k' => k' = k) ks))))
      (merge_sort R (remove_dups ks)).

Definition key_le (a b : Z * string) : Prop :=
  a.1 < b.1 \/ (a.1 = b.1 /\ String.leb a.2 b.2 = true).

#[global] Instance key_le_dec a b : Decision (key_le a b).
Proof. unfold key_le. apply _. Defined.

(** The sum of a column of counts. *)
Definition sumZ (l : list Z) : Z := foldr Z.add 0 l.

(** A row of [tree_counts], and of [ward_tree_counts.csv]. *)
Record count_row : Type := {
  c_ward_id : Z;
  c_tree_type : string;
  c_count : Z;
}.

(** Lines 163-168. *)
Definition tree_counts (trees_with_ward : list (tree * option Z))
  : list count_row :=
  map (fun kc => {| c_ward_id := kc.1.1; c_tree_type := kc.1.2;
                    c_count := kc.2 |})
      (groupby_size key_le
         (map (fun r => (r.2, tree_type r.1)) (dropna trees_with_ward))).

(** The sum of the [count] column. *)
Definition total_count (tc : list count_row) : Z := sumZ (map c_count tc).

(** The group of one ward in [tree_counts.groupby("ward_id")]. *)
Definition ward_group (tc : list count_row) (wid : Z) : list count_row :=
  filter (fun r => c_ward_id r = wid) tc.

(** Line 169. *)
Definition ward_tree_dict (tc : list count_row) : gmap Z (PyDict.t Z) :=
  foldl (fun d wid =>
           <[wid := PyDict.of_pairs
                      (map (fun r => (c_tree_type r, c_count r))
                           (ward_group tc wid))]> d)
        ∅ (merge_sort Z.le (remove_dups (map c_ward_id tc))).

(** Lines 172-177. *)
Definition school_counts (schools_with_ward : list (feature * option Z))
  : list (Z * Z) :=
  groupby_size Z.le (map snd (dropna schools_with_ward)).

(** Line 178: [dict(zip(ward_id, school_count))]. *)
Definition school_count_dict (sc : list (Z * Z)) : gmap Z Z :=
  foldl (fun d kv => <[kv.1 := kv.2]> d) ∅ sc.

(** ** 8) Attach stats and export *)

Record ward_out : Type := {
  o_ward_id : Z;
  o_ward_name : cell;
  o_num_schools : Z;
  o_avg_elev : option float;
  o_tree_dist : string;
  o_geometry : Geometry;
}.

(** Line 185: [map(school_count_dict).fillna(0).astype(int)]. *)
Definition num_schools (scd : gmap Z Z) (wid : Z) : Z :=
  default 0 (scd !! wid).

(** Line 186: a key without entry and an entry [None] both read as a
    missing value. *)
Definition avg_elev (avg_elevs : gmap Z (option float)) (wid : Z)
  : option float :=
  default None (avg_elevs !! wid).

(** Line 187. *)
Definition tree_dist (wtd : gmap Z (PyDict.t Z)) (wid : Z) : string :=
  Json.dumps (default [] (wtd !! wid)).

(** Lines 185-187: the ward table with its three derived columns. *)
Definition attach_stats (wards : list ward) (scd : gmap Z Z)
    (avg_elevs : gmap Z (option float)) (wtd : gmap Z (PyDict.t Z))
  : list ward_out :=
  map (fun w => {| o_ward_id := ward_id w;
                   o_ward_name := ward_name w;
                   o_num_schools := num_schools scd (ward_id w);
                   o_avg_elev := avg_elev avg_elevs (ward_id w);
                   o_tree_dist := tree_dist wtd (ward_id w);
                   o_geometry := w_geometry w |}) wards.

(** Lines 190-191: the copy whose geometry column is simplified. *)
Definition simplify_wards (simp : Geometry -> Geometry)
    (wards : list ward_out) : list ward_out :=
  map (fun w => {| o_ward_id := o_ward_id w;
                   o_ward_name := o_ward_name w;
                   o_num_schools := o_num_schools w;
                   o_avg_elev := o_avg_elev w;
                   o_tree_dist := o_tree_dist w;
                   o_geometry := simp (o_geometry w) |}) wards.

(** A row of [ward_stats.csv]. *)
Record stats_row : Type := {
  s_ward_id : Z;
  s_ward_name : cell;
  s_num_schools : Z;
  s_avg_elev : option float;
}.

Definition stats_of (w : ward_out) : stats_row :=
  {| s_ward_id := o_ward_id w; s_ward_name := o_ward_name w;
     s_num_schools := o_num_schools w; s_avg_elev := o_avg_elev w |}.

(** The files under [data/processed]. *)
Record outputs : Type := {
  dem_clipped_tif : raster;
  wards_geojson : list ward_out;
  trees_geojson : list tree;
  schools_geojson : list feature;
  ward_stats_csv : list stats_row;
  ward_tree_counts_csv : list count_row;
}.

(** Stages 4 to 8, once the three vector layers are loaded. *)
Definition process (simp : Geometry -> Geometry) (fs : filesystem)
    (wards : list ward) (trees : list tree) (schools : list feature)
  : result outputs :=
  do dem_out <- clip_dem fs wards;
  do avg_elevs <- zonal_stats dem_out wards;
  let trees_with_ward := sjoin_within t_geometry trees wards in
  let schools_with_ward := sjoin_within geometry schools wards in
  let tc := tree_counts trees_with_ward in
  let wtd := ward_tree_dict tc in
  let scd := school_count_dict (school_counts schools_with_ward) in
  let wards' := attach_stats wards scd avg_elevs wtd in
  let wards_simpl := simplify_wards simp wards' in
  Ok {| dem_clipped_tif := dem_out;
        wards_geojson := wards_simpl;
        trees_geojson := trees;
        schools_geojson := schools;
        ward_stats_csv := map stats_of wards_simpl;
        ward_tree_counts_csv := tc |}.

(** The whole script, with the simplification it applies as a parameter:
    what it prints in [except] branches, and its files or the exception
    that ends it. *)
Definition pipeline_with (simp : Geometry -> Geometry) (fs : filesystem)
  : list warning * result outputs :=
  match load_wards fs with
  | Raise e => ([], Raise e)
  | Ok wards =>
      let '(out, loaded) := load_trees fs in
      (out,
       do trees <- loaded;
       do schools <- load_schools fs;
       process simp fs wards trees schools)
  end.

(** The script: [simplify tolerance g] stands for shapely's
    [g.simplify(tolerance, preserve_topology=True)]. *)
Definition pipeline (simplify : float -> Geometry -> Geometry)
    (fs : filesystem) : list warning * result outputs :=
  pipeline_with (simplify SIMPLIFY_TOLERANCE) fs.

End Pipeline.

(** ** Vocabulary of the statements *)


Section Vocabulary.
Context `{GS : GeoStack}.

(** A ward of the ward set, as [wards.to_crs(src.crs)] delivers it in
    the reference system [c] of the raster. *)
Definition ward_in_crs (c : CRS) (w : ward) : ward :=
  {| ward_id := ward_id w; ward_name := ward_name w;
     w_geometry := transform epsg4326 c (w_geometry w) |}.

(** The key of a row of [tree_counts]. *)
Definition row_key (r : count_row) : Z * string :=
  (c_ward_id r, c_tree_type r).

End Vocabulary.

(** ** A concrete stack: points and axis-parallel boxes on the integer grid

    Enough of shapely, rasterio and numpy to run the pipeline on small
    inputs: geometries are lattice points, boxes with corners on the
    lattice and unions of such boxes, all in EPSG:4326, [NoGeom] is the
    missing geometry, a raster is the list of its cells, each with the
    lattice point of its centre, and a sum adds from left to right. *)

Module Demo.

Definition box : Type := Z * Z * Z * Z.   (* minx, miny, maxx, maxy *)

Inductive geom : Type :=
  | Pt (x y : Z)
  | Box (b : box)
  | Boxes (bs : list box)
  | NoGeom.

Definition gtype (g : geom) : string :=
  match g with
  | Pt _ _ => "Point"
  | Box _ => "Polygon"
  | Boxes _ => "MultiPolygon"
  | NoGeom => "None"
  end.

Definition present (g : geom) : bool :=
  match g with
  | NoGeom => false
  | _ => true
  end.

(** The point lies in the interior of the box. *)
Definition inside (x y : Z) (b : box) : bool :=
  let '(x0, y0, x1, y1) := b in
  ((x0 <? x) && (x <? x1) && (y0 <? y) && (y <? y1))%Z.

Definition box_in (a b : box) : bool :=
  let '(a0, b0, a1, b1) := a in
  let '(x0, y0, x1, y1) := b in
  ((x0 <=? a0) && (a1 <=? x1) && (y0 <=? b0) && (b1 <=? y1))%Z.

(** The quadrant of the point towards [(dx, dy)], near the point, lies
    in the box; [dx] and [dy] are 0 (left, down) or 1 (right, up). *)
Definition quadrant_in (x y dx dy : Z) (b : box) : bool :=
  let '(x0, y0, x1, y1) := b in
  ((x0 + 1 <=? x + dx) && (x + dx <=? x1)
   && (y0 + 1 <=? y + dy) && (y + dy <=? y1))%Z.

(** The point lies in the interior of the union of the boxes: each of
    the four quadrants around it lies in one of them. *)
Definition inside_union (x y : Z) (bs : list box) : bool :=
  forallb (fun d => existsb (quadrant_in x y d.1 d.2) bs)
          [(0, 0); (1, 0); (0, 1); (1, 1)].

Definition gwithin (a b : geom) : bool :=
  match a, b with
  | Pt x y, Pt x' y' => ((x =? x') && (y =? y'))%Z
  | Pt x y, Box b => inside x y b
  | Pt x y, Boxes bs => inside_union x y bs
  | Box a, Box b => box_in a b
  | Box a, Boxes bs => existsb (box_in a) bs
  | _, _ => false
  end.

Definition boxes_of (g : geom) : list box :=
  match g with
  | Pt _ _ => []
  | Box b => [b]
  | Boxes bs => bs
  | NoGeom => []
  end.

Definition union (gs : list geom) : geom :=
  Boxes (concat (map boxes_of gs)).

Definition cells : Type := list (Z * Z * float).

(** No simplification changes a point or a box. *)
Definition gsimplify (tolerance : float) (g : geom) : geom := g.

(** The cells whose centre some shape covers keep their value, the
    others take the fill value; shapes that cover no cell do not overlap
    the raster. *)
Definition gmask (data : cells) (dataset_nodata : option float)
    (shapes : list geom) (nodata : option float) : result cells :=
  let fill := default (default zero dataset_nodata) nodata in
  let covered (c : Z * Z * float) :=
    existsb (fun g => gwithin (Pt c.1.1 c.1.2) g) shapes in
  if existsb covered data
  then Ok (map (fun c => if covered c then c else (c.1, fill)) data)
  else Raise (ValueError "Input shapes do not overlap raster.").

(** Plain decimal literals, with an optional minus sign. *)
Definition parse_int (s : string) : option Z :=
  match NilZero.int_of_string s with
  | Some d => Some (Z.of_int d)
  | None => None
  end.

Definition left_sum (xs : list float) : float := foldl PrimFloat.add zero xs.

Lemma left_sum_zeros (band : list float) :
  Forall (fun c => c = zero) band -> left_sum band = zero.
Proof.
  unfold left_sum. induction 1 as [|c band -> _ IH]; [reflexivity|exact IH].
Qed.

#[global] Instance stack : GeoStack := {|
  Geometry := geom;
  has_geometry := present;
  geom_type := gtype;
  CRS := unit;
  epsg4326 := tt;
  transform := fun _ _ g => g;
  within := gwithin;
  buffer0 := fun g => g;
  unary_union := union;
  RasterData := cells;
  mask := gmask;
  band0 := map snd;
  int_of_str := parse_int;
  np_sum := left_sum;
  np_sum_zeros := left_sum_zeros;
|}.

Definition point (x y : Z) : feature :=
  {| props := ∅; geometry := Pt x y |}.

Definition named (name : string) (x y : Z) : feature :=
  {| props := {[ "TreeName" := CStr name ]}; geometry := Pt x y |}.

Definition numbered (n : Z) (b : box) : feature :=
  {| props := {[ "KGISWardNo" := CInt n ]}; geometry := Box b |}.

Definition plain (b : box) : feature :=
  {| props := ∅; geometry := Box b |}.

Definition vector (cols : list string) (fts : list feature) : file :=
  VectorFile {| crs := Some tt; columns := cols; features := fts |}.

(** Two adjacent wards without attribute columns. *)
Definition two_wards : file :=
  vector [] [plain (0, 0, 10, 10); plain (10, 0, 20, 10)].

(** Two disjoint wards that carry the same ward number. *)
Definition same_number_wards : file :=
  vector ["KGISWardNo"] [numbered 5 (0, 0, 10, 10); numbered 5 (20, 0, 30, 10)].

(** Two ward polygons that overlap. *)
Definition overlapping_wards : file :=
  vector [] [plain (0, 0, 10, 10); plain (5, 0, 15, 10)].

(** Trees: two in the first ward, one on the common edge, one in the
    second ward, one outside. *)
Definition some_trees : file :=
  vector ["TreeName"]
    [named " Neem " 2 2; named "Neem" 3 3; named "Peepal" 10 5;
     named "Peepal" 12 5; named "Neem" 40 40].


Definition some_schools : file :=
  vector [] [point 1 1; point 2 8; point 15 5; plain (1, 1, 2, 2)].

Definition dem (nodata : option float) (data : cells) : file :=
  RasterFile {| r_crs := Some tt; r_nodata := nodata; r_data := data |}.

Definition nd : float := (-9999)%float.

(** Two measured cells and a nodata cell under the first ward, one
    nodata cell under the second. *)
Definition dem1 : raster :=
  {| r_crs := Some tt; r_nodata := Some nd;
     r_data := [(5, 5, 900%float); (6, 5, 910%float); (7, 5, nd);
                (15, 5, nd)] |}.

Definition some_dem : file := RasterFile dem1.

Definition raw (wards trees schools raster : file) : filesystem :=
  {[ WARDS_RAW := wards;
     "data/raw/blr_east_zone_trees_11_2024.kml" := trees;
     "data/raw/blr_west_zone_trees_11_2024.kml" := OtherFile;
     SCHOOLS_RAW := schools;
     DEM_RAW := raster ]}.

Definition fs1 : filesystem := raw two_wards some_trees some_schools some_dem.

(** The wards the loader makes of [two_wards]. *)
Definition ward1 : ward :=
  {| ward_id := 1; ward_name := CStr "Ward 1";
     w_geometry := Box (0, 0, 10, 10) |}.

Definition ward2 : ward :=
  {| ward_id := 2; ward_name := CStr "Ward 2";
     w_geometry := Box (10, 0, 20, 10) |}.

Definition wards1 : list ward := [ward1; ward2].

(** A ward file that is readable and has no feature. *)
Definition fs_no_wards : filesystem :=
  raw (vector [] []) some_trees some_schools some_dem.

Definition fs_same_number : filesystem :=
  raw same_number_wards some_trees some_schools some_dem.

(** One tree in the overlap of two wards. *)
Definition fs_overlap : filesystem :=
  raw overlapping_wards (vector ["TreeName"] [named "Neem" 7 5])
      some_schools some_dem.

(** One tree on the common edge of two adjacent wards. *)
Definition fs_edge : filesystem :=
  raw two_wards (vector ["TreeName"] [named "Neem" 10 5])
      some_schools some_dem.

(** The trees the loader makes of [some_trees]. *)
Definition trees1 : list tree :=
  [ {| tree_type := "Neem"; t_geometry := Pt 2 2 |};
    {| tree_type := "Neem"; t_geometry := Pt 3 3 |};
    {| tree_type := "Peepal"; t_geometry := Pt 10 5 |};
    {| tree_type := "Peepal"; t_geometry := Pt 12 5 |};
    {| tree_type := "Neem"; t_geometry := Pt 40 40 |} ].

(** Two disjoint wards with the same number, and one school in the
    first of them. *)
Definition fs_same_number_school : filesystem :=
  raw same_number_wards some_trees (vector [] [point 1 1]) some_dem.






End Demo.

(** * Properties *)

(** ** Trimming *)

Section StripFacts.
Import PyStr.





End StripFacts.

(** ** Tree species normalisation *)

Section TreeTypeFacts.
Context `{GS : GeoStack}.


End TreeTypeFacts.


(** ** Results *)

Section ResultFacts.
Context {A B : Type} (f : A -> result B).

Lemma mapM_ok_inv (l : list A) (bs : list B) :
  mapM f l = Ok bs -> Forall2 (fun a b => f a = Ok b) l bs.
Proof.
  revert bs. induction l as [|a l IH]; intros bs; simpl.
  - intros [= <-]. constructor.
  - destruct (f a) as [b|e] eqn:Ha; simpl; [|discriminate].
    destruct (mapM f l) as [bs'|e]; simpl; [|discriminate].
    intros [= <-]. constructor; auto.
Qed.

Lemma mapM_raise_iff (l : list A) :
  (exists e, mapM f l = Raise e) <-> Exists (fun a => is_ok (f a) = false) l.
Proof.
  induction l as [|a l IH]; simpl.
  - split; [intros [e He]; discriminate | intros He; inversion He].
  - destruct (f a) as [b|e] eqn:Ha; simpl.
    + destruct (mapM f l) as [bs|e]; simpl.
      * split; [intros [e He]; discriminate|].
        intros He. apply Exists_cons in He as [He|He].
        -- rewrite Ha in He. discriminate.
        -- apply IH in He as [e He]. discriminate.
      * split; [|eauto]. intros _. apply Exists_cons_tl, IH. eauto.
    + split; [|eauto]. intros _. apply Exists_cons_hd. now rewrite Ha.
Qed.

End ResultFacts.

Lemma mapM_map {A B C} (f : B -> result C) (g : A -> B) (l : list A) :
  mapM f (map g l) = mapM (fun a => f (g a)) l.
Proof.
  induction l as [|a l IH]; simpl; [reflexivity|]. now rewrite IH.
Qed.

(** ** The ward loader *)

Section WardFacts.
Context `{GS : GeoStack}.

Lemma imap_row_order {X} (l : list X) (k : nat) :
  imap (fun i _ => Z.of_nat (k + i) + 1) l
  = map Z.of_nat (seq (S k) (length l)).
Proof.
  revert k. induction l as [|x l IH]; intros k; simpl; [reflexivity|].
  f_equal; [lia|].
  rewrite <- IH. apply imap_ext. intros i y _. simpl. f_equal. lia.
Qed.

Lemma row_order_ids {X} (l : list X) :
  imap (fun i _ => Z.of_nat i + 1) l = map Z.of_nat (seq 1 (length l)).
Proof. apply (imap_row_order l 0). Qed.

Lemma row_order_ids_NoDup (n : nat) : NoDup (map Z.of_nat (seq 1 n)).
Proof.
  apply NoDup_fmap_2; [intros x y; lia | apply NoDup_seq].
Qed.

Lemma assign_ward_ids_length gdf ids :
  assign_ward_ids gdf = Ok ids -> length ids = length (features gdf).
Proof.
  unfold assign_ward_ids. destruct (has_column _ gdf).
  - intros H. apply mapM_ok_inv in H. symmetry. eapply Forall2_length, H.
  - intros [= <-]. apply length_imap.
Qed.

Lemma assign_ward_names_length gdf ids :
  length ids = length (features gdf) ->
  length (assign_ward_names gdf ids) = length (features gdf).
Proof.
  intros H. unfold assign_ward_names.
  destruct (has_column _ gdf); rewrite length_map; auto.
Qed.

Lemma make_wards_columns gdf ids names :
  length ids = length (features gdf) ->
  length names = length (features gdf) ->
  map ward_id (make_wards gdf ids names) = ids
  /\ map ward_name (make_wards gdf ids names) = names
  /\ map w_geometry (make_wards gdf ids names) = map geometry (features gdf).
Proof.
  unfold make_wards. generalize (features gdf) as fts.
  intros fts. revert ids names.
  induction fts as [|f fts IH]; intros [|i ids] [|n names]; simpl;
    try discriminate; auto.
  intros [= Hi] [= Hn]. destruct (IH ids names Hi Hn) as (-> & -> & ->).
  auto.
Qed.

(** What a successful run of the loader was given, and what it made of
    it. *)
Lemma load_wards_ok_inv fs wards :
  load_wards fs = Ok wards ->
  exists gdf c,
    fs !! WARDS_RAW = Some (VectorFile gdf) /\ crs gdf = Some c
    /\ (if has_column "KGISWardNo" gdf
        then mapM (fun f => astype_int (col f "KGISWardNo")) (features gdf)
        else Ok (map Z.of_nat (seq 1 (length (features gdf)))))
       = Ok (map ward_id wards)
    /\ map ward_name wards
       = (if has_column "KGISWardName" gdf
          then map (fun f => col f "KGISWardName") (features gdf)
          else map (fun i => CStr ("Ward " ++ PyStr.of_int i))
                   (map ward_id wards))
    /\ map w_geometry wards
       = map (fun f => transform c epsg4326 (geometry f)) (features gdf).
Proof.
  unfold load_wards, read_file.
  destruct (fs !! WARDS_RAW) as [[gdf| |]|] eqn:Hfs; simpl; try discriminate.
  unfold to_crs. destruct (crs gdf) as [c|] eqn:Hc; simpl; [|discriminate].
  set (gdf' := {| crs := Some epsg4326; columns := columns gdf;
                  features := _ |}).
  destruct (assign_ward_ids gdf') as [ids|e] eqn:Hids; simpl; [|discriminate].
  intros [= <-]. exists gdf, c. split; [reflexivity|]. split; [assumption|].
  pose proof (assign_ward_ids_length _ _ Hids) as Hlen.
  pose proof (assign_ward_names_length _ _ Hlen) as Hlen'.
  destruct (make_wards_columns gdf' ids _ Hlen Hlen') as (-> & -> & ->).
  split; [|split].
  - revert Hids. unfold assign_ward_ids, has_column. simpl.
    destruct (bool_decide _).
    + rewrite mapM_map. auto.
    + rewrite row_order_ids, length_map. auto.
  - unfold assign_ward_names, has_column. simpl.
    destruct (bool_decide _); [|reflexivity].
    rewrite map_map. reflexivity.
  - simpl. rewrite map_map. reflexivity.
Qed.

End WardFacts.

(** ** The dictionary of average elevations *)

Section AvgElevsFacts.
Context `{GS : GeoStack}.

Lemma avg_elevs_loop_app src ws1 ws2 :
  avg_elevs_loop src (ws1 ++ ws2)
  = foldl (fun d w => <[ward_id w := ward_mean src w]> d)
          (avg_elevs_loop src ws1) ws2.
Proof. unfold avg_elevs_loop. apply foldl_app. Qed.

Lemma avg_elevs_loop_snoc src ws w :
  avg_elevs_loop src (ws ++ [w])
  = <[ward_id w := ward_mean src w]> (avg_elevs_loop src ws).
Proof. now rewrite avg_elevs_loop_app. Qed.

(** Every key of the dictionary is the identifier of a ward, and holds
    the value computed for a ward with that identifier. *)
Lemma avg_elevs_loop_lookup_inv src ws wid v :
  avg_elevs_loop src ws !! wid = Some v ->
  exists w, w ∈ ws /\ ward_id w = wid /\ v = ward_mean src w.
Proof.
  induction ws as [|w ws IH] using rev_ind.
  - unfold avg_elevs_loop. simpl. rewrite lookup_empty. discriminate.
  - rewrite avg_elevs_loop_snoc.
    destruct (decide (ward_id w = wid)) as [<-|Hne].
    + rewrite lookup_insert_eq. intros [= <-].
      exists w. split; [|auto].
      apply elem_of_app. right. now apply list_elem_of_singleton.
    + rewrite lookup_insert_ne by done. intros H.
      destruct (IH H) as (w' & Hin & Hid & Hv).
      exists w'. split; [|auto]. apply elem_of_app. now left.
Qed.

Lemma avg_elevs_loop_is_Some src ws w :
  w ∈ ws -> is_Some (avg_elevs_loop src ws !! ward_id w).
Proof.
  induction ws as [|w' ws IH] using rev_ind; [intros Hin; inversion Hin|].
  rewrite avg_elevs_loop_snoc. intros Hin.
  destruct (decide (ward_id w' = ward_id w)) as [E|Hne].
  - rewrite E, lookup_insert_eq. eauto.
  - rewrite lookup_insert_ne by done. apply IH.
    apply elem_of_app in Hin as [Hin|Hin]; [exact Hin|].
    apply list_elem_of_singleton in Hin. subst w'. contradiction.
Qed.

(** With pairwise distinct identifiers, there is one entry per ward and
    it holds the value of that ward. *)
Lemma avg_elevs_loop_NoDup src ws :
  NoDup (map ward_id ws) ->
  size (avg_elevs_loop src ws) = length ws
  /\ Forall (fun w => avg_elevs_loop src ws !! ward_id w
                      = Some (ward_mean src w)) ws.
Proof.
  induction ws as [|w ws IH] using rev_ind.
  - intros _. split; [reflexivity|constructor].
  - rewrite map_app. simpl. intros Hnd.
    apply NoDup_app in Hnd as (Hnd & Hfresh & _).
    destruct (IH Hnd) as [Hsize Hall].
    assert (Hnone : avg_elevs_loop src ws !! ward_id w = None).
    { destruct (avg_elevs_loop src ws !! ward_id w) as [v|] eqn:Hv; [|done].
      apply avg_elevs_loop_lookup_inv in Hv as (w' & Hin & Hid & _).
      exfalso. apply (Hfresh (ward_id w));
        [|now apply list_elem_of_singleton].
      rewrite <- Hid. apply list_elem_of_fmap. eauto. }
    rewrite avg_elevs_loop_snoc. split.
    + rewrite map_size_insert_None by done. rewrite length_app, Hsize.
      simpl. lia.
    + apply Forall_app. split.
      * eapply Forall_impl; [exact Hall|]. simpl. intros w' Hw'.
        rewrite lookup_insert_ne; [done|].
        intros E. rewrite <- E, Hnone in Hw'. discriminate.
      * constructor; [|constructor]. apply lookup_insert_eq.
Qed.

(** The loop runs to its end exactly when every row has a geometry, and
    then holds the assignments of all rows. *)
Lemma avg_elevs_rows_ok src rows d m :
  avg_elevs_rows src rows d = Ok m ->
  Forall (fun w => has_geometry (w_geometry w) = true) rows
  /\ m = foldl (fun d w => <[ward_id w := ward_mean src w]> d) d rows.
Proof.
  revert d. induction rows as [|w rows IH]; intros d; simpl.
  - intros [= <-]. split; [constructor|reflexivity].
  - unfold row_mapping. destruct (has_geometry (w_geometry w)) eqn:Hw; simpl;
      [|discriminate].
    intros Hrest. destruct (IH _ Hrest) as [Hall ->].
    split; [constructor; assumption|reflexivity].
Qed.


Lemma wards_to_crs_ids target wards wards_dem :
  wards_to_crs target wards = Ok wards_dem ->
  map ward_id wards_dem = map ward_id wards
  /\ length wards_dem = length wards.
Proof.
  unfold wards_to_crs. destruct target as [c|]; [|discriminate].
  intros [= <-]. rewrite map_map, length_map. split; reflexivity.
Qed.

(** The stage, its two ways to raise apart, is the loop over the wards
    in the reference system of the raster. *)
Lemma zonal_stats_ok_inv src wards avg :
  zonal_stats src wards = Ok avg ->
  exists c,
    r_crs src = Some c
    /\ Forall (fun w => has_geometry (w_geometry (ward_in_crs c w)) = true)
              wards
    /\ avg = avg_elevs_loop src (map (ward_in_crs c) wards).
Proof.
  unfold zonal_stats, wards_to_crs.
  destruct (r_crs src) as [c|]; simpl; [|discriminate].
  intros Hrows. apply avg_elevs_rows_ok in Hrows as [Hall ->].
  exists c. split; [reflexivity|]. split; [|reflexivity].
  now apply Forall_fmap in Hall.
Qed.


(** Every ward has an entry in the dictionary of the completed loop. *)
Lemma avg_elevs_entries src c wards :
  Forall (fun w =>
            exists w', w' ∈ wards /\ ward_id w' = ward_id w
              /\ avg_elevs_loop src (map (ward_in_crs c) wards) !! ward_id w
                 = Some (ward_mean src (ward_in_crs c w'))) wards
  /\ (NoDup (map ward_id wards) ->
      Forall (fun w =>
                avg_elevs_loop src (map (ward_in_crs c) wards) !! ward_id w
                = Some (ward_mean src (ward_in_crs c w))) wards).
Proof.
  split.
  - apply Forall_forall. intros w Hin.
    assert (Hin' : ward_in_crs c w ∈ map (ward_in_crs c) wards)
      by (apply list_elem_of_fmap; eauto).
    destruct (avg_elevs_loop_is_Some src _ _ Hin') as [v Hv].
    simpl in Hv.
    destruct (avg_elevs_loop_lookup_inv _ _ _ _ Hv)
      as (w'' & Hw'' & Hid & ->).
    apply list_elem_of_fmap in Hw'' as (w' & -> & Hw').
    exists w'. auto.
  - intros Hnd.
    assert (Hnd' : NoDup (map ward_id (map (ward_in_crs c) wards)))
      by now rewrite map_map.
    destruct (avg_elevs_loop_NoDup src _ Hnd') as [_ Hrows].
    now apply Forall_fmap in Hrows.
Qed.

End AvgElevsFacts.

(** ** Ward identifiers *)

Section WardIdFacts.
Context `{GS : GeoStack}.

(** C6, as the code has it: the ward loader raises exactly when the ward
    file cannot be read, the layer carries no reference system, or the
    file has a [KGISWardNo] column with a value that does not convert to
    an integer; a readable file with zero features makes it raise in
    none of these ways.  Whenever it does not raise, the ward set has
    one ward per feature, with the identifiers cast from [KGISWardNo] or
    numbered from 1 in row order, the geometries reprojected to
    EPSG:4326 and the canonical names. *)
Theorem load_wards_outcome (fs : filesystem) :
  ((exists e, load_wards fs = Raise e) <->
   match fs !! WARDS_RAW with
   | Some (VectorFile gdf) =>
       crs gdf = None \/
       (has_column "KGISWardNo" gdf = true /\
        Exists (fun f => is_ok (astype_int (col f "KGISWardNo")) = false)
               (features gdf))
   | _ => True
   end)
  /\ match load_wards fs with
     | Ok wards =>
         exists gdf c,
           fs !! WARDS_RAW = Some (VectorFile gdf) /\ crs gdf = Some c
           /\ length wards = length (features gdf)
           /\ (if has_column "KGISWardNo" gdf
               then mapM (fun f => astype_int (col f "KGISWardNo"))
                         (features gdf)
               else Ok (map Z.of_nat (seq 1 (length (features gdf)))))
              = Ok (map ward_id wards)
           /\ map w_geometry wards
              = map (fun f => transform c epsg4326 (geometry f)) (features gdf)
           /\ map ward_name wards
              = (if has_column "KGISWardName" gdf
                 then map (fun f => col f "KGISWardName") (features gdf)
                 else map (fun i => CStr ("Ward " ++ PyStr.of_int i))
                          (map ward_id wards))
     | Raise _ => True
     end.
Proof.
  split.
  - unfold load_wards, read_file.
    destruct (fs !! WARDS_RAW) as [[gdf| |]|]; simpl;
      try solve [split; eauto].
    unfold to_crs. destruct (crs gdf) as [c|]; simpl;
      [|solve [split; eauto]].
    unfold assign_ward_ids, has_column. simpl.
    destruct (bool_decide ("KGISWardNo" ∈ columns gdf)); simpl.
    + rewrite mapM_map.
      rewrite <- (mapM_raise_iff (fun f => astype_int (col f "KGISWardNo"))).
      simpl. split.
      * intros [e He]. right. split; [reflexivity|].
        destruct (mapM _ (features gdf)); [discriminate|eauto].
      * intros [?|[_ [e He]]]; [discriminate|].
        setoid_rewrite He. simpl. eauto.
    + split; [intros [e He]; discriminate|].
      intros [?|[? _]]; discriminate.
  - destruct (load_wards fs) as [wards|e] eqn:Hload; [|exact I].
    destruct (load_wards_ok_inv _ _ Hload)
      as (gdf & c & Hfs & Hc & Hids & Hn & Hg).
    exists gdf, c. repeat split; auto.
    rewrite <- (length_map w_geometry), Hg, length_map. reflexivity.
Qed.

(** C9, as the code has it: under the row-order fallback the identifiers
    are 1, 2, ..., one per row, hence pairwise distinct; when the file
    has a [KGISWardNo] column they are the integer casts of its values,
    whatever these are.  Whenever the identifiers are pairwise distinct,
    the dictionary of average elevations has exactly one entry per
    ward. *)
Theorem ward_id_uniqueness (fs : filesystem) (wards : list ward) :
  load_wards fs = Ok wards ->
  exists gdf,
    fs !! WARDS_RAW = Some (VectorFile gdf)
    /\ (has_column "KGISWardNo" gdf = false ->
        map ward_id wards = map Z.of_nat (seq 1 (length wards))
        /\ NoDup (map ward_id wards))
    /\ (has_column "KGISWardNo" gdf = true ->
        mapM (fun f => astype_int (col f "KGISWardNo")) (features gdf)
        = Ok (map ward_id wards))
    /\ (NoDup (map ward_id wards) ->
        forall src avg_elevs,
          zonal_stats src wards = Ok avg_elevs ->
          size avg_elevs = length wards).
Proof.
  intros Hload.
  destruct (load_wards_ok_inv _ _ Hload) as (gdf & c & Hfs & Hc & Hids & _ & Hg).
  exists gdf. split; [exact Hfs|].
  assert (Hlen : length wards = length (features gdf)).
  { rewrite <- (length_map w_geometry), Hg, length_map. reflexivity. }
  split; [|split].
  - intros Hcol. rewrite Hcol in Hids. injection Hids as Hids.
    rewrite Hlen, <- Hids. split; [reflexivity|apply row_order_ids_NoDup].
  - intros Hcol. rewrite Hcol in Hids. exact Hids.
  - intros Hnd src avg. unfold zonal_stats.
    destruct (wards_to_crs (r_crs src) wards) as [wd|e] eqn:Hwd; simpl;
      [|discriminate].
    intros Hrows. apply avg_elevs_rows_ok in Hrows as [_ ->].
    destruct (wards_to_crs_ids _ _ _ Hwd) as [Hid Hl].
    rewrite <- Hid in Hnd.
    destruct (avg_elevs_loop_NoDup src wd Hnd) as [Hsize _].
    unfold avg_elevs_loop in Hsize. rewrite Hsize. exact Hl.
Qed.

End WardIdFacts.

(** C6 fails as stated: a readable ward file with zero features does not
    make the loader fail; it yields the empty ward set. *)
Lemma no_features_is_no_error :
  Demo.fs_no_wards !! WARDS_RAW = Some (Demo.vector [] [])
  /\ load_wards Demo.fs_no_wards = Ok [].
Proof. split; vm_compute; reflexivity. Qed.

(** C9 fails as stated: two features that carry the same ward number
    become two wards with the same identifier. *)
Lemma same_ward_number_twice :
  exists wards,
    load_wards Demo.fs_same_number = Ok wards
    /\ map ward_id wards = [5; 5].
Proof. eexists. split; vm_compute; reflexivity. Qed.

(** The two wards of [Demo.fs1] have no ward number: they are numbered 1
    and 2 by row order. *)
Lemma ward_id_uniqueness_witness :
  load_wards Demo.fs1 = Ok Demo.wards1
  /\ map ward_id Demo.wards1 = [1; 2]
  /\ NoDup (map ward_id Demo.wards1).
Proof.
  assert (H : load_wards Demo.fs1 = Ok Demo.wards1)
    by (vm_compute; reflexivity).
  split; [exact H|].
  destruct (ward_id_uniqueness Demo.fs1 Demo.wards1 H)
    as (gdf & Hfs & Hfallback & _).
  assert (Hfile : Demo.fs1 !! WARDS_RAW = Some Demo.two_wards)
    by (vm_compute; reflexivity).
  rewrite Hfile in Hfs. injection Hfs as <-.
  destruct (Hfallback eq_refl) as [Hids Hnd].
  split; [exact Hids|exact Hnd].
Defined.

(** ** The tree loader *)

Section TreeLoaderFacts.
Context `{GS : GeoStack}.

Lemma normalize_tree_type_geometry gdf :
  map t_geometry (normalize_tree_type gdf) = map geometry (features gdf).
Proof.
  unfold normalize_tree_type.
  destruct (has_column "TreeName" gdf); [|destruct (has_column "tree_type" gdf)];
    rewrite map_map; reflexivity.
Qed.

Lemma load_tree_file_ok_inv fs tf l :
  load_tree_file fs tf = Ok l ->
  exists gdf c,
    fs !! tf = Some (VectorFile gdf) /\ crs gdf = Some c
    /\ map t_geometry l
       = map (fun f => transform c epsg4326 (geometry f)) (features gdf).
Proof.
  unfold load_tree_file, read_file.
  destruct (fs !! tf) as [[gdf| |]|]; simpl; try discriminate.
  unfold to_crs. destruct (crs gdf) as [c|] eqn:Hc; simpl; [|discriminate].
  intros [= <-]. exists gdf, c. split; [reflexivity|]. split; [assumption|].
  rewrite normalize_tree_type_geometry. simpl. rewrite map_map. reflexivity.
Qed.

(** The loop appends to both accumulators what each file contributes. *)
Lemma tree_loop_spec fs files tree_layers out :
  tree_loop fs files tree_layers out
  = ((tree_layers ++ omap (loaded_layer fs) files)%list,
     (out ++ omap (warning_of fs) files)%list).
Proof.
  revert tree_layers out.
  induction files as [|tf files IH]; intros tree_layers out; simpl.
  - now rewrite !app_nil_r.
  - unfold loaded_layer at 1, warning_of at 1.
    destruct (path_exists fs tf); [|apply IH].
    destruct (load_tree_file fs tf) as [gdf|e]; rewrite IH.
    + now rewrite <- app_assoc.
    + now rewrite <- app_assoc.
Qed.

Lemma omap_nil_iff {X Y} (g : X -> option Y) (l : list X) :
  omap g l = [] <-> Forall (fun x => g x = None) l.
Proof.
  induction l as [|x l IH]; simpl.
  - split; auto.
  - destruct (g x) eqn:Hx.
    + split; [discriminate|]. intros H. apply Forall_cons in H as [H _].
      congruence.
    + rewrite IH. split; [auto|]. intros H. now apply Forall_cons in H as [_ H].
Qed.

(** C7: a file that does not exist contributes nothing and prints
    nothing; a file that exists and cannot be loaded contributes nothing
    and prints one warning; the loader raises exactly when no file was
    loaded, and otherwise returns the concatenation, in file order, of
    the loaded layers, each reprojected to EPSG:4326. *)
Theorem load_trees_outcome (fs : filesystem) (files : list string) :
  (load_trees_from fs files).1 = omap (warning_of fs) files
  /\ (load_trees_from fs files).2
     = match omap (loaded_layer fs) files with
       | [] => Raise (FileNotFoundError "No valid tree files found")
       | tree_layers => Ok (concat tree_layers)
       end
  /\ (is_ok (load_trees_from fs files).2 = false
      <-> Forall (fun tf => loaded_layer fs tf = None) files)
  /\ (forall tf,
        (path_exists fs tf = false ->
         loaded_layer fs tf = None /\ warning_of fs tf = None)
        /\ (forall e, path_exists fs tf = true ->
            load_tree_file fs tf = Raise e ->
            loaded_layer fs tf = None
            /\ warning_of fs tf = Some (ErrorReading tf e))
        /\ (forall l, loaded_layer fs tf = Some l ->
            warning_of fs tf = None
            /\ exists gdf c,
                 fs !! tf = Some (VectorFile gdf) /\ crs gdf = Some c
                 /\ map t_geometry l
                    = map (fun f => transform c epsg4326 (geometry f))
                          (features gdf))).
Proof.
  unfold load_trees_from. rewrite tree_loop_spec. simpl.
  split; [reflexivity|].
  split; [destruct (omap (loaded_layer fs) files); reflexivity|]. split.
  - rewrite <- omap_nil_iff.
    destruct (omap (loaded_layer fs) files); simpl; split;
      auto; discriminate.
  - intros tf. unfold loaded_layer, warning_of. split; [|split].
    + intros ->. auto.
    + intros e -> ->. auto.
    + intros l. destruct (path_exists fs tf); [|discriminate].
      destruct (load_tree_file fs tf) as [l'|e] eqn:Hl; [|discriminate].
      intros [= <-]. split; [reflexivity|].
      now apply load_tree_file_ok_inv.
Qed.

End TreeLoaderFacts.

(** [Demo.fs1]: the east file loads, the south file does not exist and
    the west file cannot be read. *)
Lemma load_trees_outcome_witness :
  (load_trees Demo.fs1).1
  = [ErrorReading "data/raw/blr_west_zone_trees_11_2024.kml"
       (DataSourceError "data/raw/blr_west_zone_trees_11_2024.kml")]
  /\ (load_trees Demo.fs1).2 = Ok Demo.trees1
  /\ loaded_layer Demo.fs1 "data/raw/blr_south_zone_trees_11_2024.kml" = None
  /\ warning_of Demo.fs1 "data/raw/blr_south_zone_trees_11_2024.kml" = None
  /\ loaded_layer Demo.fs1 "data/raw/blr_west_zone_trees_11_2024.kml" = None.
Proof.
  destruct (load_trees_outcome Demo.fs1 TREE_FILES)
    as (Hprinted & Hloaded & _ & Hfile).
  unfold load_trees. rewrite Hprinted, Hloaded.
  split; [vm_compute; reflexivity|]. split; [vm_compute; reflexivity|].
  destruct (Hfile "data/raw/blr_south_zone_trees_11_2024.kml")
    as (Hmissing & _ & _).
  destruct (Hfile "data/raw/blr_west_zone_trees_11_2024.kml")
    as (_ & Hbroken & _).
  destruct Hmissing as [Hnone Hquiet]; [vm_compute; reflexivity|].
  split; [exact Hnone|]. split; [exact Hquiet|].
  eapply Hbroken; vm_compute; reflexivity.
Defined.

(** ** Grouping and counting *)

Section SumFacts.
Context {K : Type} `{EqDecision K}.

Lemma sumZ_of_nat (f : K -> nat) (l : list K) :
  sumZ (map (fun k => Z.of_nat (f k)) l) = Z.of_nat (sum_list_with f l).
Proof.
  unfold sumZ. induction l as [|k l IH]; simpl; [reflexivity|].
  rewrite IH. lia.
Qed.

Lemma sum_list_with_plus (f g : K -> nat) (l : list K) :
  sum_list_with (fun k => f k + g k)%nat l
  = (sum_list_with f l + sum_list_with g l)%nat.
Proof. induction l as [|k l IH]; simpl; lia. Qed.

Lemma sum_list_with_zero (f : K -> nat) (l : list K) :
  Forall (fun k => f k = 0%nat) l -> sum_list_with f l = 0%nat.
Proof. induction 1 as [|k l Hk _ IH]; simpl; lia. Qed.

Lemma sum_list_with_indicator (x : K) (l : list K) :
  NoDup l -> x ∈ l ->
  sum_list_with (fun k => if decide (x = k) then 1 else 0)%nat l = 1%nat.
Proof.
  induction 1 as [|k l Hk Hnd IH]; intros Hin; [inversion Hin|].
  simpl. apply elem_of_cons in Hin as [->|Hin].
  - rewrite decide_True by done.
    rewrite sum_list_with_zero; [reflexivity|].
    apply Forall_forall. intros y Hy.
    rewrite decide_False; [reflexivity|]. intros ->. contradiction.
  - rewrite decide_False by (intros ->; contradiction).
    now rewrite IH.
Qed.

Lemma occurrences_cons (k x : K) (ks : list K) :
  length (filter (fun k' => k' = k) (x :: ks))
  = ((if decide (x = k) then 1 else 0)
     + length (filter (fun k' => k' = k) ks))%nat.
Proof.
  rewrite filter_cons. destruct (decide (x = k)); reflexivity.
Qed.

Lemma occurrences_zero (k : K) (ks : list K) :
  k ∉ ks -> length (filter (fun k' => k' = k) ks) = 0%nat.
Proof.
  induction ks as [|x ks IH]; intros Hk; [reflexivity|].
  apply not_elem_of_cons in Hk as [Hne Hk].
  rewrite occurrences_cons, decide_False by done. now apply IH.
Qed.

Lemma occurrences_positive (k : K) (ks : list K) :
  k ∈ ks -> (1 <= length (filter (fun k' => k' = k) ks))%nat.
Proof.
  induction 1 as [x ks|x y ks _ IH]; rewrite occurrences_cons.
  - rewrite decide_True by done. lia.
  - lia.
Qed.

(** Summing the occurrences over distinct keys that cover the list
    counts every element once. *)
Lemma sum_occurrences (d ks : list K) :
  NoDup d -> Forall (fun k => k ∈ d) ks ->
  sum_list_with (fun k => length (filter (fun k' => k' = k) ks)) d
  = length ks.
Proof.
  intros Hnd. induction 1 as [|x ks Hx _ IH].
  - apply sum_list_with_zero, Forall_forall. reflexivity.
  - transitivity
      (sum_list_with
         (fun k => (if decide (x = k) then 1 else 0)
                   + length (filter (fun k' => k' = k) ks))%nat d).
    + clear. induction d as [|k d IHd]; simpl; [reflexivity|].
      now rewrite IHd, occurrences_cons.
    + rewrite sum_list_with_plus, IH, sum_list_with_indicator by done.
      reflexivity.
Qed.

End SumFacts.

Section GroupByFacts.
Context {K : Type} `{EqDecision K} (R : relation K)
        `{forall x y, Decision (R x y)}.

Lemma groupby_size_keys (ks : list K) :
  map fst (groupby_size R ks) = merge_sort R (remove_dups ks).
Proof.
  unfold groupby_size. rewrite map_map. simpl. apply map_id.
Qed.

Lemma groupby_size_counts (ks : list K) :
  map snd (groupby_size R ks)
  = map (fun k => Z.of_nat (length (filter (fun k' => k' = k) ks)))
        (merge_sort R (remove_dups ks)).
Proof. unfold groupby_size. rewrite map_map. reflexivity. Qed.

Lemma groupby_keys_NoDup (ks : list K) :
  NoDup (merge_sort R (remove_dups ks)).
Proof.
  rewrite merge_sort_Permutation. apply NoDup_remove_dups.
Qed.

Lemma groupby_keys_elem (ks : list K) (k : K) :
  k ∈ merge_sort R (remove_dups ks) <-> k ∈ ks.
Proof.
  rewrite merge_sort_Permutation. apply elem_of_remove_dups.
Qed.

Lemma groupby_size_NoDup (ks : list K) : NoDup (map fst (groupby_size R ks)).
Proof. rewrite groupby_size_keys. apply groupby_keys_NoDup. Qed.

Lemma groupby_size_elem (ks : list K) (k : K) (c : Z) :
  (k, c) ∈ groupby_size R ks
  <-> k ∈ ks /\ c = Z.of_nat (length (filter (fun k' => k' = k) ks)).
Proof.
  unfold groupby_size. rewrite list_elem_of_fmap. split.
  - intros (k' & [= -> ->] & Hin).
    split; [exact (proj1 (groupby_keys_elem ks k') Hin)|reflexivity].
  - intros [Hin ->]. exists k. split; [reflexivity|].
    apply groupby_keys_elem, Hin.
Qed.

Lemma groupby_size_positive (ks : list K) :
  Forall (fun kc => 1 <= kc.2) (groupby_size R ks).
Proof.
  apply Forall_forall. intros [k c] Hin.
  apply groupby_size_elem in Hin as [Hin ->]. simpl.
  pose proof (occurrences_positive k ks Hin). lia.
Qed.

Lemma groupby_size_total (ks : list K) :
  sumZ (map snd (groupby_size R ks)) = Z.of_nat (length ks).
Proof.
  rewrite groupby_size_counts, sumZ_of_nat. f_equal.
  apply sum_occurrences; [apply groupby_keys_NoDup|].
  apply Forall_forall. intros k Hk. apply groupby_keys_elem, Hk.
Qed.

End GroupByFacts.

(** ** The spatial join *)

Section JoinFacts.
Context `{GS : GeoStack} {A : Type} (geom : A -> Geometry).

Lemma dropna_app (l1 l2 : list (A * option Z)) :
  dropna (l1 ++ l2) = (dropna l1 ++ dropna l2)%list.
Proof. apply omap_app. Qed.

Lemma dropna_join_row (wards : list ward) (a : A) :
  dropna (join_row geom wards a)
  = map (fun w => (a, ward_id w)) (wards_around wards (geom a)).
Proof.
  unfold join_row, wards_around.
  destruct (filter _ wards) as [|w ws]; [reflexivity|].
  generalize (w :: ws). intros l. unfold dropna.
  induction l as [|x l IH]; simpl; [reflexivity|]. f_equal. exact IH.
Qed.

Lemma dropna_sjoin (left : list A) (wards : list ward) :
  dropna (sjoin_within geom left wards)
  = concat (map (fun a => map (fun w => (a, ward_id w))
                              (wards_around wards (geom a))) left).
Proof.
  unfold sjoin_within. induction left as [|a left IH]; [reflexivity|].
  simpl. now rewrite dropna_app, dropna_join_row, IH.
Qed.

Lemma length_dropna_sjoin (left : list A) (wards : list ward) :
  length (dropna (sjoin_within geom left wards))
  = sum_list_with (fun a => length (wards_around wards (geom a))) left.
Proof.
  rewrite dropna_sjoin. induction left as [|a left IH]; [reflexivity|].
  simpl. now rewrite length_app, length_map, IH.
Qed.

(** The occurrences of one identifier among the joined rows. *)
Lemma occurrences_dropna_sjoin (left : list A) (wards : list ward) (wid : Z) :
  length (filter (fun i => i = wid)
                 (map snd (dropna (sjoin_within geom left wards))))
  = sum_list_with
      (fun a => length (filter (fun w => ward_id w = wid)
                               (wards_around wards (geom a)))) left.
Proof.
  rewrite dropna_sjoin. induction left as [|a left IH]; [reflexivity|].
  simpl. rewrite map_app, filter_app, length_app, IH. f_equal.
  rewrite map_map. simpl.
  generalize (wards_around wards (geom a)). intros l.
  induction l as [|w l IHl]; [reflexivity|].
  simpl. rewrite !filter_cons. simpl.
  destruct (decide (ward_id w = wid)); simpl; now rewrite IHl.
Qed.

Lemma in_some_ward_around (wards : list ward) (g : Geometry) :
  in_some_ward wards g = false <-> wards_around wards g = [].
Proof.
  unfold in_some_ward, wards_around.
  induction wards as [|w wards IH]; simpl; [tauto|].
  rewrite filter_cons. destruct (within g (w_geometry w)); simpl.
  - split; discriminate.
  - exact IH.
Qed.

Lemma sjoin_within_sound (left : list A) (wards : list ward) :
  Forall (fun r =>
            match r.2 with
            | Some wid =>
                exists w, w ∈ wards /\ ward_id w = wid
                          /\ within (geom r.1) (w_geometry w) = true
            | None => in_some_ward wards (geom r.1) = false
            end)
         (sjoin_within geom left wards).
Proof.
  unfold sjoin_within. induction left as [|a left IH]; [constructor|].
  simpl. apply Forall_app. split; [|exact IH].
  unfold join_row.
  destruct (filter _ wards) as [|w ws] eqn:Hf.
  - constructor; [|constructor]. simpl. now apply in_some_ward_around.
  - rewrite <- Hf. apply Forall_fmap, Forall_forall. intros w' Hw'.
    apply list_elem_of_filter in Hw' as [Hin Hw']. simpl.
    exists w'. split; [exact Hw'|]. split; [reflexivity|].
    now apply Is_true_eq_true.
Qed.

(** When a point lies within at most one ward, it is joined once if it
    lies within some ward and not at all otherwise. *)
Lemma matches_at_most_one (left : list A) (wards : list ward) :
  Forall (fun a => (length (wards_around wards (geom a)) <= 1)%nat) left ->
  sum_list_with (fun a => length (wards_around wards (geom a))) left
  = length (filter (fun a => in_some_ward wards (geom a)) left).
Proof.
  induction 1 as [|a left Ha _ IH]; [reflexivity|].
  simpl. rewrite filter_cons, IH.
  destruct (in_some_ward wards (geom a)) eqn:Hin; simpl.
  - destruct (wards_around wards (geom a)) as [|w [|w' l]] eqn:Hw;
      simpl in *; [|reflexivity|lia].
    apply in_some_ward_around in Hw. congruence.
  - apply in_some_ward_around in Hin. now rewrite Hin.
Qed.

End JoinFacts.

(** ** Tree counts *)

Section TreeCountFacts.
Context `{GS : GeoStack}.

Lemma tree_counts_counts (tw : list (tree * option Z)) :
  map c_count (tree_counts tw)
  = map snd (groupby_size key_le
               (map (fun r => (r.2, tree_type r.1)) (dropna tw))).
Proof. unfold tree_counts. rewrite map_map. reflexivity. Qed.

Lemma tree_counts_total_rows (tw : list (tree * option Z)) :
  total_count (tree_counts tw) = Z.of_nat (length (dropna tw)).
Proof.
  unfold total_count. rewrite tree_counts_counts, groupby_size_total.
  now rewrite length_map.
Qed.

(** C10: every row of the ward-by-tree-type table has a count of at
    least one: its (ward, tree type) pair is the pair of some joined
    tree point, and its count is the number of joined tree points with
    that pair. *)
Theorem tree_counts_positive (trees : list tree) (wards : list ward) :
  let joined :=
    map (fun r => (r.2, tree_type r.1))
        (dropna (sjoin_within t_geometry trees wards)) in
  Forall (fun r =>
            1 <= c_count r
            /\ (c_ward_id r, c_tree_type r) ∈ joined
            /\ c_count r
               = Z.of_nat
                   (length (filter (fun k => k = (c_ward_id r, c_tree_type r))
                                   joined)))
         (tree_counts (sjoin_within t_geometry trees wards)).
Proof.
  simpl. unfold tree_counts. apply Forall_fmap, Forall_forall.
  intros [[wid t] c] Hin. simpl.
  apply groupby_size_elem in Hin as [Hin ->].
  split; [|split; [exact Hin|reflexivity]].
  pose proof (occurrences_positive _ _ Hin). lia.
Qed.

(** C2, as the code has it: a tree is assigned to a ward only when it
    lies within that ward's polygon, and to no ward when it lies within
    none; the counts of the table add up to the number of (tree, ward)
    pairs with the tree within the ward; when no tree lies within two
    wards, that is the number of trees that lie within at least one
    ward polygon. *)
Theorem tree_counts_total (trees : list tree) (wards : list ward) :
  let trees_with_ward := sjoin_within t_geometry trees wards in
  Forall (fun r =>
            match r.2 with
            | Some wid =>
                exists w, w ∈ wards /\ ward_id w = wid
                          /\ within (t_geometry r.1) (w_geometry w) = true
            | None => in_some_ward wards (t_geometry r.1) = false
            end) trees_with_ward
  /\ total_count (tree_counts trees_with_ward)
     = Z.of_nat (sum_list_with
                   (fun t => length (wards_around wards (t_geometry t)))
                   trees)
  /\ (Forall (fun t => (length (wards_around wards (t_geometry t)) <= 1)%nat)
             trees ->
      total_count (tree_counts trees_with_ward)
      = Z.of_nat (length (filter (fun t => in_some_ward wards (t_geometry t))
                                 trees))).
Proof.
  simpl. split; [apply sjoin_within_sound|].
  rewrite tree_counts_total_rows, length_dropna_sjoin.
  split; [reflexivity|].
  intros Hone. now rewrite matches_at_most_one.
Qed.

End TreeCountFacts.

(** The five trees and two adjacent wards of [Demo.fs1]: no tree lies in
    two wards, and three of the trees lie within a ward. *)
Lemma tree_counts_total_witness :
  total_count (tree_counts (sjoin_within t_geometry Demo.trees1 Demo.wards1))
  = Z.of_nat (length (filter (fun t => in_some_ward Demo.wards1 (t_geometry t))
                             Demo.trees1))
  /\ length (filter (fun t => in_some_ward Demo.wards1 (t_geometry t))
                    Demo.trees1) = 3%nat.
Proof.
  split; [|vm_compute; reflexivity].
  apply (proj2 (proj2 (tree_counts_total Demo.trees1 Demo.wards1))).
  repeat constructor.
Defined.

(** C2 fails as stated: a tree in the overlap of two wards is counted
    once for each of them, so the counts add up to 2 for the one tree
    within the union; and a tree on the common edge of two adjacent wards
    lies within their union and is counted for neither. *)
Lemma counts_differ_from_points_in_union :
  (exists out wards,
     (pipeline Demo.gsimplify Demo.fs_overlap).2 = Ok out
     /\ load_wards Demo.fs_overlap = Ok wards
     /\ total_count (ward_tree_counts_csv out) = 2
     /\ length (filter (fun t => within (t_geometry t)
                                   (unary_union (map w_geometry wards)))
                       (trees_geojson out)) = 1%nat)
  /\ (exists out wards,
        (pipeline Demo.gsimplify Demo.fs_edge).2 = Ok out
        /\ load_wards Demo.fs_edge = Ok wards
        /\ total_count (ward_tree_counts_csv out) = 0
        /\ length (filter (fun t => within (t_geometry t)
                                      (unary_union (map w_geometry wards)))
                          (trees_geojson out)) = 1%nat).
Proof.
  split; do 2 eexists; repeat split; vm_compute; reflexivity.
Qed.

(** ** The stages in sequence *)

Section PipelineFacts.
Context `{GS : GeoStack}.

Lemma process_ok_inv simp fs wards trees schools out :
  process simp fs wards trees schools = Ok out ->
  exists dem_out avg_elevs,
    clip_dem fs wards = Ok dem_out
    /\ zonal_stats dem_out wards = Ok avg_elevs
    /\ dem_clipped_tif out = dem_out
    /\ trees_geojson out = trees
    /\ schools_geojson out = schools
    /\ ward_tree_counts_csv out
       = tree_counts (sjoin_within t_geometry trees wards)
    /\ wards_geojson out
       = simplify_wards simp
           (attach_stats wards
              (school_count_dict
                 (school_counts (sjoin_within geometry schools wards)))
              avg_elevs
              (ward_tree_dict
                 (tree_counts (sjoin_within t_geometry trees wards))))
    /\ ward_stats_csv out = map stats_of (wards_geojson out).
Proof.
  unfold process.
  destruct (clip_dem fs wards) as [dem_out|e]; simpl; [|discriminate].
  destruct (zonal_stats dem_out wards) as [avg|e] eqn:Hz; simpl;
    [|discriminate].
  intros [= <-]. exists dem_out, avg. simpl.
  split; [reflexivity|]. split; [exact Hz|]. repeat split; reflexivity.
Qed.

Lemma pipeline_ok_inv simp fs out :
  (pipeline_with simp fs).2 = Ok out ->
  exists wards trees schools,
    load_wards fs = Ok wards
    /\ (load_trees fs).2 = Ok trees
    /\ load_schools fs = Ok schools
    /\ process simp fs wards trees schools = Ok out.
Proof.
  unfold pipeline_with.
  destruct (load_wards fs) as [wards|e]; simpl; [|discriminate].
  destruct (load_trees fs) as [printed [trees|e]]; simpl; [|discriminate].
  destruct (load_schools fs) as [schools|e] eqn:Hs; simpl; [|discriminate].
  intros Hp. exists wards, trees, schools. auto.
Qed.

Lemma load_schools_points fs schools :
  load_schools fs = Ok schools -> Forall (fun s => is_point s) schools.
Proof.
  unfold load_schools.
  destruct (read_file fs SCHOOLS_RAW) as [gdf|e]; simpl; [|discriminate].
  destruct (to_crs epsg4326 gdf) as [gdf'|e]; simpl; [|discriminate].
  intros [= <-]. apply Forall_forall. intros s Hs.
  now apply list_elem_of_filter in Hs as [Hs _].
Qed.

(** The rows of the exported ward table stand in the order of the wards,
    and each carries what the three dictionaries hold for its ward. *)
Lemma exported_rows (P : ward -> ward_out -> Prop) simp wards scd avg wtd :
  Forall (fun w =>
            P w {| o_ward_id := ward_id w;
                   o_ward_name := ward_name w;
                   o_num_schools := num_schools scd (ward_id w);
                   o_avg_elev := avg_elev avg (ward_id w);
                   o_tree_dist := tree_dist wtd (ward_id w);
                   o_geometry := simp (w_geometry w) |}) wards ->
  Forall2 P wards (simplify_wards simp (attach_stats wards scd avg wtd)).
Proof.
  unfold simplify_wards, attach_stats.
  induction 1 as [|w wards Hw _ IH]; simpl; constructor; auto.
Qed.

End PipelineFacts.

(** ** School counts *)

Section SchoolFacts.
Context `{GS : GeoStack}.

Lemma school_count_dict_other (rows : list (Z * Z)) (d : gmap Z Z) (k : Z) :
  k ∉ map fst rows ->
  foldl (fun d kv => <[kv.1 := kv.2]> d) d rows !! k = d !! k.
Proof.
  revert d. induction rows as [|[k' v'] rows IH]; intros d Hk; [reflexivity|].
  simpl in *. apply not_elem_of_cons in Hk as [Hne Hk].
  rewrite IH by exact Hk. now rewrite lookup_insert_ne.
Qed.

Lemma school_count_dict_elem (rows : list (Z * Z)) (d : gmap Z Z) (k v : Z) :
  NoDup (map fst rows) -> (k, v) ∈ rows ->
  foldl (fun d kv => <[kv.1 := kv.2]> d) d rows !! k = Some v.
Proof.
  revert d. induction rows as [|[k' v'] rows IH]; intros d Hnd Hin.
  - inversion Hin.
  - simpl in *. apply NoDup_cons in Hnd as [Hfresh Hnd].
    apply elem_of_cons in Hin as [[= -> ->]|Hin].
    + rewrite school_count_dict_other by exact Hfresh.
      apply lookup_insert_eq.
    + now apply IH.
Qed.

(** The number of schools of an identifier is the number of joined rows
    that carry it, zero included. *)
Lemma num_schools_occurrences (ids : list Z) (wid : Z) :
  num_schools (school_count_dict (groupby_size Z.le ids)) wid
  = Z.of_nat (length (filter (fun i => i = wid) ids)).
Proof.
  unfold num_schools, school_count_dict.
  destruct (decide (wid ∈ ids)) as [Hin|Hout].
  - erewrite school_count_dict_elem; [reflexivity|apply groupby_size_NoDup|].
    apply groupby_size_elem. auto.
  - rewrite school_count_dict_other, lookup_empty.
    + simpl. now rewrite occurrences_zero.
    + rewrite groupby_size_keys. now rewrite groupby_keys_elem.
Qed.

Lemma no_ward_with_id (wards : list ward) (g : Geometry) (wid : Z) :
  wid ∉ map ward_id wards ->
  filter (fun w => ward_id w = wid) (wards_around wards g) = [].
Proof.
  intros Hout. unfold wards_around.
  induction wards as [|w wards IH]; [reflexivity|].
  simpl in Hout. apply not_elem_of_cons in Hout as [Hne Hout].
  rewrite filter_cons. destruct (decide (within g (w_geometry w))).
  - rewrite filter_cons, decide_False by congruence. now apply IH.
  - now apply IH.
Qed.

(** With pairwise distinct identifiers, the wards around a point that
    carry the identifier of [w] are [w] itself or none. *)
Lemma one_ward_with_id (wards : list ward) (g : Geometry) (w : ward) :
  NoDup (map ward_id wards) -> w ∈ wards ->
  length (filter (fun w' => ward_id w' = ward_id w) (wards_around wards g))
  = if within g (w_geometry w) then 1%nat else 0%nat.
Proof.
  induction wards as [|w0 wards IH]; intros Hnd Hin; [inversion Hin|].
  simpl in Hnd. apply NoDup_cons in Hnd as [Hfresh Hnd].
  unfold wards_around in *. rewrite filter_cons.
  apply elem_of_cons in Hin as [->|Hin].
  - pose proof (no_ward_with_id wards g (ward_id w0) Hfresh) as Hno.
    unfold wards_around in Hno.
    destruct (decide (within g (w_geometry w0))) as [Ht|Hf].
    + rewrite filter_cons, decide_True by reflexivity. rewrite Hno.
      apply Is_true_eq_true in Ht. now rewrite Ht.
    + rewrite Hno. destruct (within g (w_geometry w0)); [|reflexivity].
      exfalso. apply Hf. exact I.
  - assert (Hne : ward_id w0 <> ward_id w).
    { intros E. apply Hfresh. rewrite E. now apply list_elem_of_fmap_2. }
    destruct (decide (within g (w_geometry w0))).
    + rewrite filter_cons, decide_False by exact Hne. now apply IH.
    + now apply IH.
Qed.

Lemma sum_indicator_filter {X} (P : X -> bool) (l : list X) :
  sum_list_with (fun x => if P x then 1 else 0)%nat l
  = length (filter (fun x => P x) l).
Proof.
  induction l as [|x l IH]; [reflexivity|].
  simpl. rewrite filter_cons, IH. destruct (P x); reflexivity.
Qed.

Lemma sum_list_with_eq {X} (f g : X -> nat) (l : list X) :
  Forall (fun x => f x = g x) l -> sum_list_with f l = sum_list_with g l.
Proof. induction 1 as [|x l Hx _ IH]; simpl; congruence. Qed.

(** C3, as the code has it: the exported [num_schools] of a ward is a
    non-negative integer, the number of (school, ward) pairs such that
    the school, a Point or MultiPoint feature, lies within the
    full-resolution polygon of a ward that carries the same [ward_id];
    it is zero, not missing, when there is no such pair.  When the ward
    identifiers are pairwise distinct it is the number of schools within
    the ward's own full-resolution polygon. *)
Theorem num_schools_is_count_within simp (fs : filesystem) (out : outputs) :
  (pipeline_with simp fs).2 = Ok out ->
  exists wards schools,
    load_wards fs = Ok wards /\ load_schools fs = Ok schools
    /\ schools_geojson out = schools
    /\ Forall (fun s => is_point s) schools
    /\ Forall2
         (fun w o =>
            o_ward_id o = ward_id w
            /\ 0 <= o_num_schools o
            /\ o_num_schools o
               = Z.of_nat
                   (sum_list_with
                      (fun s => length
                                  (filter (fun w' => ward_id w' = ward_id w)
                                          (wards_around wards (geometry s))))
                      schools))
         wards (wards_geojson out)
    /\ (NoDup (map ward_id wards) ->
        Forall2
          (fun w o =>
             o_num_schools o
             = Z.of_nat
                 (length (filter (fun s => within (geometry s) (w_geometry w))
                                 schools)))
          wards (wards_geojson out)).
Proof.
  intros Hrun.
  destruct (pipeline_ok_inv _ _ _ Hrun)
    as (wards & trees & schools & Hw & _ & Hs & Hp).
  destruct (process_ok_inv _ _ _ _ _ _ Hp)
    as (dem & avg & _ & _ & _ & _ & Hsch & _ & Hrows & _).
  exists wards, schools. split; [exact Hw|]. split; [exact Hs|].
  split; [exact Hsch|]. split; [eapply load_schools_points, Hs|].
  rewrite Hrows. unfold school_counts.
  split.
  - apply exported_rows, Forall_forall. intros w _. simpl.
    rewrite num_schools_occurrences, occurrences_dropna_sjoin.
    split; [reflexivity|]. split; [lia|reflexivity].
  - intros Hnd. apply exported_rows, Forall_forall. intros w Hin. simpl.
    rewrite num_schools_occurrences, occurrences_dropna_sjoin. f_equal.
    rewrite <- sum_indicator_filter. apply sum_list_with_eq, Forall_forall.
    intros s _. now apply one_ward_with_id.
Qed.

End SchoolFacts.

(** [Demo.fs1]: the first ward holds two of the three school points and
    the second ward one; the polygon among the school features was
    dropped by the loader. *)
Lemma num_schools_is_count_within_witness :
  exists out,
    (pipeline_with (GS := Demo.stack) (Demo.gsimplify SIMPLIFY_TOLERANCE)
                   Demo.fs1).2 = Ok out
    /\ map o_num_schools (wards_geojson out) = [2; 1]
    /\ exists wards schools,
         load_wards Demo.fs1 = Ok wards /\ load_schools Demo.fs1 = Ok schools
         /\ NoDup (map ward_id wards)
         /\ Forall2
              (fun w o =>
                 o_num_schools o
                 = Z.of_nat
                     (length (filter (fun s => within (geometry s)
                                                      (w_geometry w))
                                     schools)))
              wards (wards_geojson out).
Proof.
  destruct (pipeline_with (GS := Demo.stack)
              (Demo.gsimplify SIMPLIFY_TOLERANCE) Demo.fs1).2
    as [out|e] eqn:Hrun; [|vm_compute in Hrun; discriminate].
  exists out. split; [reflexivity|].
  split; [vm_compute in Hrun; injection Hrun as <-; reflexivity|].
  destruct (num_schools_is_count_within _ _ _ Hrun)
    as (wards & schools & Hw & Hs & _ & _ & _ & Hcount).
  exists wards, schools. split; [exact Hw|]. split; [exact Hs|].
  assert (Hnd : NoDup (map ward_id wards)).
  { vm_compute in Hw. injection Hw as <-. simpl.
    apply (bool_decide_unpack _). vm_compute. exact I. }
  split; [exact Hnd|exact (Hcount Hnd)].
Defined.

(** C3 fails as stated: of two disjoint wards with the same ward number,
    the second has no school within its polygon and is exported with the
    one school of the first. *)
Lemma shared_ward_id_shares_schools :
  exists out wards schools,
    (pipeline Demo.gsimplify Demo.fs_same_number_school).2 = Ok out
    /\ load_wards Demo.fs_same_number_school = Ok wards
    /\ load_schools Demo.fs_same_number_school = Ok schools
    /\ map o_num_schools (wards_geojson out) = [1; 1]
    /\ map (fun w =>
              length (filter (fun s => within (geometry s) (w_geometry w))
                             schools)) wards
       = [1; 0]%nat.
Proof.
  do 3 eexists. repeat split; vm_compute; reflexivity.
Qed.

(** ** Simplification *)

Section SimplifyFacts.
Context `{GS : GeoStack}.






End SimplifyFacts.

(** ** Encoding and decoding JSON objects *)

Section JsonFacts.
Import Json.
Local Arguments String.append !_ _ / : simpl nomatch.

Lemma string_app_assoc (a b c : string) : (a ++ b) ++ c = a ++ (b ++ c).
Proof. induction a as [|x a IH]; simpl; [reflexivity|]. now rewrite IH. Qed.

Lemma string_length_app (a b : string) :
  String.length (a ++ b) = (String.length a + String.length b)%nat.
Proof. induction a as [|x a IH]; simpl; [reflexivity|]. now rewrite IH. Qed.

(** Decoding steps over the escape of one character. *)
Lemma scan_escape_char (c : ascii) (tail : string) :
  scan_string (escape_char c ++ tail)
  = match scan_string tail with
    | Some (r, rest) => Some (String c r, rest)
    | None => None
    end.
Proof.
  destruct c as [[|] [|] [|] [|] [|] [|] [|] [|]]; reflexivity.
Qed.

Lemma scan_string_escape (k rest : string) :
  scan_string (escape k ++ String dquote rest) = Some (k, rest).
Proof.
  induction k as [|c k IH]; [reflexivity|].
  simpl escape. now rewrite string_app_assoc, scan_escape_char, IH.
Qed.

Lemma read_digits_of_uint (d : Decimal.uint) (tail : string) :
  ends_number tail ->
  read_digits (NilEmpty.string_of_uint d ++ tail) = (d, tail).
Proof.
  intros Htail.
  induction d as [|d IH|d IH|d IH|d IH|d IH|d IH|d IH|d IH|d IH|d IH];
    simpl; try (now rewrite IH).
  destruct tail as [|c t]; [reflexivity|].
  simpl. destruct Htail as [-> _]. reflexivity.
Qed.

Lemma unorm_head (u d : Decimal.uint) :
  Decimal.unorm u = Decimal.D0 d -> d = Decimal.Nil.
Proof.
  unfold Decimal.unorm. destruct (Decimal.nzhead u) eqn:Hnz; intros E;
    try discriminate.
  - now injection E as <-.
  - exfalso. exact (DecimalFacts.nzhead_nonzero _ _ Hnz).
Qed.

Lemma to_uint_head (p : positive) (d : Decimal.uint) :
  Pos.to_uint p <> Decimal.D0 d.
Proof.
  intros E.
  pose proof (DecimalPos.Unsigned.to_of (Pos.to_uint p)) as Hnorm.
  rewrite DecimalPos.Unsigned.of_to in Hnorm. simpl in Hnorm.
  rewrite E in Hnorm at 1. symmetry in Hnorm.
  apply unorm_head in Hnorm. subst d.
  exact (DecimalPos.Unsigned.to_uint_nonzero p E).
Qed.

Lemma scan_nat_of_pos (p : positive) (tail : string) :
  ends_number tail ->
  scan_nat (NilZero.string_of_uint (Pos.to_uint p) ++ tail)
  = Some (Pos.to_uint p, tail).
Proof.
  intros Htail.
  pose proof (read_digits_of_uint (Pos.to_uint p) tail Htail) as Hread.
  pose proof (to_uint_head p) as Hhead.
  pose proof (DecimalPos.Unsigned.to_uint_nonnil p) as Hnil.
  unfold NilZero.string_of_uint.
  destruct (Pos.to_uint p) as [|d|d|d|d|d|d|d|d|d|d];
    try (exfalso; apply Hnil; reflexivity);
    try (exfalso; apply (Hhead d); reflexivity);
    simpl; simpl in Hread; now rewrite Hread.
Qed.

Lemma scan_int_of_int (n : Z) (tail : string) :
  ends_number tail ->
  scan_int (PyStr.of_int n ++ tail) = Some (n, tail).
Proof.
  intros Htail.
  assert (Hfrac : starts_fraction tail = false).
  { destruct tail; [reflexivity|]. now destruct Htail. }
  unfold PyStr.of_int, scan_int.
  rewrite <- (DecimalZ.of_to n) at 2.
  destruct n as [|p|p]; simpl Z.to_int.
  - simpl. now rewrite Hfrac.
  - unfold NilZero.string_of_int.
    pose proof (scan_nat_of_pos p tail Htail) as Hscan.
    destruct (NilZero.string_of_uint (Pos.to_uint p) ++ tail) as [|c s] eqn:Hs;
      [discriminate|].
    assert (Hc : (N_of_ascii c =? 45)%N = false).
    { destruct (N_of_ascii c =? 45)%N eqn:Hc; [|reflexivity].
      apply N.eqb_eq in Hc. unfold scan_nat in Hscan.
      assert (c = "-"%char) as ->
        by (rewrite <- (ascii_N_embedding c), Hc; reflexivity).
      discriminate. }
    rewrite Hc, Hscan, Hfrac. reflexivity.
  - unfold NilZero.string_of_int. simpl.
    rewrite (scan_nat_of_pos p tail Htail), Hfrac. reflexivity.
Qed.

(** The text of an integer starts with a digit or a minus sign. *)
Lemma of_int_head (n : Z) (tail : string) :
  skip_ws (PyStr.of_int n ++ tail) = PyStr.of_int n ++ tail.
Proof.
  unfold PyStr.of_int. destruct n as [|p|p]; simpl; [reflexivity| |reflexivity].
  unfold NilZero.string_of_uint.
  pose proof (DecimalPos.Unsigned.to_uint_nonnil p) as Hnil.
  destruct (Pos.to_uint p); [contradiction|..]; reflexivity.
Qed.

Lemma closes_member_ends_number tail :
  closes_member tail -> ends_number tail /\ skip_ws tail = tail.
Proof. intros [t [-> | ->]]; repeat split. Qed.

Lemma scan_member_item (kv : string * Z) (tail : string) :
  closes_member tail ->
  scan_member (dumps_item kv ++ tail) = Some (kv, tail).
Proof.
  intros Htail. destruct (closes_member_ends_number _ Htail) as [Hend Hws].
  destruct kv as [k v]. unfold dumps_item, dumps_str. simpl.
  rewrite !string_app_assoc. simpl.
  rewrite scan_string_escape. simpl.
  rewrite of_int_head, (scan_int_of_int v tail Hend), Hws. reflexivity.
Qed.

Lemma join_items_head (d : PyDict.t Z) (tail : string) :
  d <> [] -> skip_ws (join_items d ++ tail) = join_items d ++ tail.
Proof.
  destruct d as [|[k v] [|kv d]]; [contradiction|..]; reflexivity.
Qed.

Lemma scan_members_join (d : PyDict.t Z) (tail : string) (fuel : nat) :
  d <> [] -> (length d <= fuel)%nat ->
  scan_members fuel (join_items d ++ String "}" tail) = Some (d, tail).
Proof.
  revert fuel. induction d as [|kv d IH]; intros fuel Hne Hfuel;
    [contradiction|].
  destruct fuel as [|fuel]; [simpl in Hfuel; lia|].
  destruct d as [|kv' d].
  - change (join_items [kv]) with (dumps_item kv).
    cbn [scan_members].
    rewrite scan_member_item by (exists tail; auto). reflexivity.
  - change (join_items (kv :: kv' :: d))
      with (dumps_item kv ++ ", " ++ join_items (kv' :: d)).
    rewrite !string_app_assoc. cbn [scan_members].
    rewrite scan_member_item by (eexists; left; reflexivity).
    set (items := join_items (kv' :: d) ++ String "}" tail).
    change (", " ++ items) with (String "," (String " " items)).
    cbv beta iota.
    replace (N_of_ascii "," =? 125)%N with false by reflexivity.
    replace (N_of_ascii "," =? 44)%N with true by reflexivity.
    change (skip_ws (String " " items)) with (skip_ws items).
    subst items. rewrite join_items_head by discriminate.
    rewrite IH; [reflexivity|discriminate|simpl in *; lia].
Qed.

Lemma dumps_item_length (kv : string * Z) :
  (1 <= String.length (dumps_item kv))%nat.
Proof. destruct kv as [k v]. unfold dumps_item, dumps_str. simpl. lia. Qed.

Lemma join_items_length (d : PyDict.t Z) :
  (length d <= String.length (join_items d))%nat.
Proof.
  induction d as [|kv d IH]; [simpl; lia|].
  pose proof (dumps_item_length kv) as Hkv.
  destruct d as [|kv' d].
  - change (join_items [kv]) with (dumps_item kv). simpl length. lia.
  - change (join_items (kv :: kv' :: d))
      with (dumps_item kv ++ ", " ++ join_items (kv' :: d)).
    rewrite !string_length_app. simpl length in *. lia.
Qed.

(** Decoding what was encoded gives the dictionary of the encoded
    pairs. *)
Lemma loads_dumps (d : PyDict.t Z) :
  loads (dumps d) = Some (PyDict.of_pairs d).
Proof.
  unfold loads, dumps. simpl skip_ws at 1.
  destruct d as [|kv d]; [reflexivity|].
  set (items := kv :: d).
  assert (Hitems : items <> []) by discriminate.
  change ("{" ++ join_items items ++ "}")
    with (String "{" (join_items items ++ String "}" "")).
  cbv beta iota.
  replace (N_of_ascii "{" =? 123)%N with true by reflexivity.
  rewrite join_items_head by exact Hitems.
  destruct (join_items items ++ String "}" "") as [|c2 s2] eqn:Hs.
  { destruct items as [|[k v] [|? ?]]; discriminate. }
  assert (Hc2 : (N_of_ascii c2 =? 125)%N = false).
  { destruct items as [|[k v] [|? ?]]; [contradiction|..];
      injection Hs as <- _; reflexivity. }
  rewrite Hc2, <- Hs.
  rewrite scan_members_join; [reflexivity|exact Hitems|].
  change (String.length (String "{" (join_items items ++ "}")))
    with (S (String.length (join_items items ++ "}"))).
  rewrite string_length_app.
  pose proof (join_items_length items). lia.
Qed.

End JsonFacts.

(** ** Dictionaries built from pairs *)

Section PyDictFacts.
Context {V : Type}.

Lemma set_fresh (k : string) (v : V) (d : PyDict.t V) :
  k ∉ PyDict.keys d -> PyDict.set k v d = (d ++ [(k, v)])%list.
Proof.
  induction d as [|[k' v'] d IH]; intros Hk; [reflexivity|].
  change (PyDict.keys ((k', v') :: d)) with (k' :: PyDict.keys d) in Hk.
  apply not_elem_of_cons in Hk as [Hne Hk].
  change (PyDict.set k v ((k', v') :: d))
    with (if decide (k = k') then (k', v) :: d
          else (k', v') :: PyDict.set k v d).
  rewrite decide_False by exact Hne. rewrite IH by exact Hk. reflexivity.
Qed.

Lemma of_pairs_from (acc pairs : PyDict.t V) :
  NoDup (PyDict.keys (acc ++ pairs)%list) ->
  foldl (fun d kv => PyDict.set kv.1 kv.2 d) acc pairs = (acc ++ pairs)%list.
Proof.
  revert acc. induction pairs as [|[k v] pairs IH]; intros acc Hnd; simpl.
  - now rewrite app_nil_r.
  - assert (Hfresh : k ∉ PyDict.keys acc).
    { unfold PyDict.keys in *. rewrite map_app in Hnd.
      apply NoDup_app in Hnd as (_ & Hdisj & _). intros Hin.
      apply (Hdisj k Hin). simpl. apply elem_of_cons. now left. }
    rewrite set_fresh by exact Hfresh.
    rewrite IH; rewrite <- app_assoc; [reflexivity|exact Hnd].
Qed.

(** A list of pairs with pairwise distinct keys is its own dictionary. *)
Lemma of_pairs_NoDup (pairs : PyDict.t V) :
  NoDup (PyDict.keys pairs) -> PyDict.of_pairs pairs = pairs.
Proof. intros Hnd. unfold PyDict.of_pairs. now rewrite of_pairs_from. Qed.

End PyDictFacts.

(** ** The tree distribution of a ward *)

Section TreeDistFacts.
Context `{GS : GeoStack}.

Lemma foldl_insert_lookup {X} (F : Z -> X) (ks : list Z) (m : gmap Z X)
    (k : Z) :
  foldl (fun d wid => <[wid := F wid]> d) m ks !! k
  = if decide (k ∈ ks) then Some (F k) else m !! k.
Proof.
  revert m. induction ks as [|k' ks IH]; intros m; cbn [foldl].
  - rewrite decide_False; [reflexivity|]. apply not_elem_of_nil.
  - rewrite IH. destruct (decide (k ∈ ks)) as [Hin|Hout].
    + rewrite decide_True; [reflexivity|]. apply elem_of_cons. now right.
    + destruct (decide (k = k')) as [->|Hne].
      * rewrite lookup_insert_eq, decide_True; [reflexivity|].
        apply elem_of_cons. now left.
      * rewrite lookup_insert_ne by congruence.
        rewrite decide_False; [reflexivity|].
        intros Hin. apply elem_of_cons in Hin as [?|?]; contradiction.
Qed.

Lemma ward_group_nil (tc : list count_row) (wid : Z) :
  wid ∉ map c_ward_id tc -> ward_group tc wid = [].
Proof.
  unfold ward_group. induction tc as [|r tc IH]; intros Hout; [reflexivity|].
  simpl in Hout. apply not_elem_of_cons in Hout as [Hne Hout].
  rewrite filter_cons, decide_False by congruence. now apply IH.
Qed.

(** What line 187 serialises for a ward: the pairs of its group. *)
Lemma ward_tree_dict_get (tc : list count_row) (wid : Z) :
  default [] (ward_tree_dict tc !! wid)
  = PyDict.of_pairs (map (fun r => (c_tree_type r, c_count r))
                         (ward_group tc wid)).
Proof.
  unfold ward_tree_dict. rewrite foldl_insert_lookup.
  destruct (decide (wid ∈ _)) as [Hin|Hout]; [reflexivity|].
  rewrite lookup_empty. simpl.
  rewrite ward_group_nil; [reflexivity|].
  intros Hin. apply Hout. rewrite merge_sort_Permutation.
  now apply elem_of_remove_dups.
Qed.

Lemma ward_group_types_NoDup (tc : list count_row) (wid : Z) :
  NoDup (map (fun r => (c_ward_id r, c_tree_type r)) tc) ->
  NoDup (map c_tree_type (ward_group tc wid)).
Proof.
  unfold ward_group. induction tc as [|r tc IH]; intros Hnd.
  - constructor.
  - simpl in Hnd. apply NoDup_cons in Hnd as [Hfresh Hnd].
    rewrite filter_cons. destruct (decide (c_ward_id r = wid)) as [E|_];
      [|now apply IH].
    simpl. apply NoDup_cons. split; [|now apply IH].
    intros Hin. apply Hfresh.
    apply list_elem_of_fmap in Hin as (r' & Ht & Hr').
    apply list_elem_of_filter in Hr' as [Hw Hr'].
    apply list_elem_of_fmap. exists r'. split; [|exact Hr'].
    now rewrite Ht, E, Hw.
Qed.

Lemma tree_counts_keys_NoDup (tw : list (tree * option Z)) :
  NoDup (map (fun r => (c_ward_id r, c_tree_type r)) (tree_counts tw)).
Proof.
  unfold tree_counts. rewrite map_map. simpl.
  pose proof (groupby_size_NoDup key_le
                (map (fun r => (r.2, tree_type r.1)) (dropna tw))) as Hnd.
  erewrite map_ext; [exact Hnd|]. intros [[w t] c]. reflexivity.
Qed.

(** Decoding the serialised distribution of a ward and summing its
    values gives the sum of the counts of the ward's rows. *)
Lemma tree_dist_sum (tw : list (tree * option Z)) (wid : Z) :
  PyDict.sum_values
    <$> Json.loads (tree_dist (ward_tree_dict (tree_counts tw)) wid)
  = Some (total_count (ward_group (tree_counts tw) wid)).
Proof.
  unfold tree_dist. rewrite ward_tree_dict_get.
  set (pairs := map (fun r => (c_tree_type r, c_count r))
                    (ward_group (tree_counts tw) wid)).
  assert (Hnd : NoDup (PyDict.keys pairs)).
  { unfold PyDict.keys, pairs. rewrite map_map. simpl.
    apply ward_group_types_NoDup, tree_counts_keys_NoDup. }
  rewrite !(of_pairs_NoDup pairs Hnd), loads_dumps, (of_pairs_NoDup pairs Hnd).
  simpl. f_equal. unfold PyDict.sum_values, PyDict.values, total_count, pairs.
  now rewrite map_map.
Qed.

(** C4: for every exported ward, decoding its [tree_dist] string and
    summing the values gives the sum of the [count] entries that
    [ward_tree_counts.csv] holds for the ward's identifier. *)
Theorem tree_dist_round_trip simp (fs : filesystem) (out : outputs) :
  (pipeline_with simp fs).2 = Ok out ->
  Forall (fun o =>
            PyDict.sum_values <$> Json.loads (o_tree_dist o)
            = Some (total_count
                      (ward_group (ward_tree_counts_csv out) (o_ward_id o))))
         (wards_geojson out).
Proof.
  intros Hrun.
  destruct (pipeline_ok_inv _ _ _ Hrun)
    as (wards & trees & schools & _ & _ & _ & Hp).
  destruct (process_ok_inv _ _ _ _ _ _ Hp)
    as (dem & avg & _ & _ & _ & _ & _ & -> & -> & _).
  unfold simplify_wards, attach_stats. rewrite map_map.
  apply Forall_fmap, Forall_forall. intros w _. simpl.
  apply tree_dist_sum.
Qed.

End TreeDistFacts.

(** [Demo.fs1]: the first ward has two trees of one species, the second
    ward one tree. *)
Lemma tree_dist_round_trip_witness :
  exists out,
    (pipeline_with (GS := Demo.stack) (Demo.gsimplify SIMPLIFY_TOLERANCE)
                   Demo.fs1).2 = Ok out
    /\ map (fun o => PyDict.sum_values <$> Json.loads (o_tree_dist o))
           (wards_geojson out) = [Some 2; Some 1]
    /\ Forall (fun o =>
                 PyDict.sum_values <$> Json.loads (o_tree_dist o)
                 = Some (total_count
                           (ward_group (ward_tree_counts_csv out)
                                       (o_ward_id o))))
              (wards_geojson out).
Proof.
  destruct (pipeline_with (GS := Demo.stack)
              (Demo.gsimplify SIMPLIFY_TOLERANCE) Demo.fs1).2
    as [out|e] eqn:Hrun; [|vm_compute in Hrun; discriminate].
  exists out. split; [reflexivity|].
  split; [vm_compute in Hrun; injection Hrun as <-; vm_compute; reflexivity|].
  exact (tree_dist_round_trip _ _ _ Hrun).
Defined.

(** ** Binary64 facts

    What the specification of the primitive floats gives about NaN, the
    conversion of a count and a quotient by it. *)

Section FloatFacts.















End FloatFacts.

(** ** Average elevation *)

Section ElevationFacts.
Context `{GS : GeoStack}.









End ElevationFacts.



(** * Further properties *)

(** ** Nodata replacement *)

Section NodataFacts.

(** No float equals NaN. *)
Lemma eqb_nan_r (c : float) : PrimFloat.eqb c nan = false.
Proof.
  rewrite FloatAxioms.eqb_spec. change (Prim2SF nan) with S754_nan.
  unfold SFeqb. destruct (Prim2SF c); reflexivity.
Qed.

(** X5: line 144 changes the cells that compare equal to the nodata
    value, and only those, into NaN; doing it twice changes nothing
    more; and with NaN as nodata value it changes nothing at all, since
    no cell compares equal to NaN. *)
Theorem replace_nodata_edges (band : list float) :
  (forall nd,
     Forall2 (fun c b => if PrimFloat.eqb c nd
                         then PrimFloat.is_nan b = true else b = c)
             band (replace_nodata (Some nd) band)
     /\ replace_nodata (Some nd) (replace_nodata (Some nd) band)
        = replace_nodata (Some nd) band)
  /\ replace_nodata (Some nan) band = band.
Proof.
  split.
  - intros nd. split.
    + simpl. induction band as [|c band IH]; simpl; constructor; auto.
      destruct (PrimFloat.eqb c nd); reflexivity.
    + simpl. rewrite map_map. apply map_ext. intros c.
      destruct (PrimFloat.eqb c nd) eqn:Hc; [|now rewrite Hc].
      destruct (PrimFloat.eqb nan nd); reflexivity.
  - simpl. induction band as [|c band IH]; simpl; [reflexivity|].
    now rewrite eqb_nan_r, IH.
Qed.

End NodataFacts.

(** ** The dictionary of average elevations, with repeated identifiers *)

Section AvgElevsMoreFacts.
Context `{GS : GeoStack}.





End AvgElevsMoreFacts.


(** ** The left join, row by row *)

Section JoinMoreFacts.
Context `{GS : GeoStack} {A : Type} (geom : A -> Geometry).

Lemma join_row_cases (wards : list ward) (a : A) :
  (in_some_ward wards (geom a) = false
   /\ join_row geom wards a = [(a, None)])
  \/ (in_some_ward wards (geom a) = true
      /\ wards_around wards (geom a) <> []
      /\ join_row geom wards a
         = map (fun w => (a, Some (ward_id w))) (wards_around wards (geom a))).
Proof.
  unfold join_row. fold (wards_around wards (geom a)).
  destruct (wards_around wards (geom a)) as [|w ws] eqn:Hw.
  - left. split; [|reflexivity]. now apply in_some_ward_around.
  - right. split; [|split; [discriminate|reflexivity]].
    destruct (in_some_ward wards (geom a)) eqn:Hin; [reflexivity|].
    apply in_some_ward_around in Hin. congruence.
Qed.

Lemma matched_rows_have_ward (a : A) (ws : list ward) :
  filter (fun r : A * option Z => r.2 = None)
         (map (fun w => (a, Some (ward_id w))) ws) = [].
Proof.
  induction ws as [|w ws IH]; [reflexivity|].
  simpl. rewrite filter_cons, decide_False by discriminate. exact IH.
Qed.

(** X8: the left join keeps every point: a point within no ward gives
    one row without ward, a point within some wards one row per such
    ward; so the rows without ward are the points within no ward, each
    once and in order, and the rows number these points plus the
    (point, ward) pairs. *)
Theorem left_join_keeps_every_point (left : list A) (wards : list ward) :
  map fst (filter (fun r => r.2 = None) (sjoin_within geom left wards))
  = filter (fun a => in_some_ward wards (geom a) = false) left
  /\ length (sjoin_within geom left wards)
     = (length (filter (fun a => in_some_ward wards (geom a) = false) left)
        + sum_list_with (fun a => length (wards_around wards (geom a))) left)%nat
  /\ Forall (fun a => a ∈ map fst (sjoin_within geom left wards)) left.
Proof.
  unfold sjoin_within.
  induction left as [|a left (IH1 & IH2 & IH3)];
    [repeat split; constructor|].
  simpl. rewrite filter_app, map_app, length_app, IH1, IH2.
  rewrite (filter_cons _ a left).
  destruct (join_row_cases wards a) as [[Hout ->]|(Hin & Hne & ->)].
  - apply in_some_ward_around in Hout as Hnone. rewrite Hnone, Hout.
    rewrite decide_True by reflexivity.
    rewrite filter_cons, decide_True by reflexivity. simpl.
    split; [reflexivity|]. split; [reflexivity|].
    constructor.
    + apply elem_of_cons. now left.
    + eapply Forall_impl; [exact IH3|]. intros x Hx.
      apply elem_of_cons. now right.
  - rewrite matched_rows_have_ward, Hin, length_map.
    rewrite decide_False by discriminate. simpl.
    split; [reflexivity|]. split; [lia|].
    constructor.
    + rewrite map_app. apply elem_of_app. left.
      destruct (wards_around wards (geom a)) as [|w ws];
        [contradiction|].
      simpl. apply elem_of_cons. now left.
    + eapply Forall_impl; [exact IH3|]. intros x Hx.
      rewrite map_app. apply elem_of_app. now right.
Qed.

Lemma elem_of_concat {X} (x : X) (ls : list (list X)) :
  x ∈ concat ls <-> exists l, x ∈ l /\ l ∈ ls.
Proof.
  induction ls as [|l ls IH]; simpl.
  - split; [intros H; inversion H|intros (l & _ & H); inversion H].
  - rewrite elem_of_app, IH. split.
    + intros [H|(l' & H & Hl')].
      * exists l. split; [exact H|]. apply elem_of_cons. now left.
      * exists l'. split; [exact H|]. apply elem_of_cons. now right.
    + intros (l' & H & Hl'). apply elem_of_cons in Hl' as [->|Hl'];
        [now left|right; eauto].
Qed.

(** The joined pairs are the (point, ward) pairs with the point within
    the ward. *)
Lemma elem_of_dropna_sjoin (left : list A) (wards : list ward)
    (a : A) (wid : Z) :
  (a, wid) ∈ dropna (sjoin_within geom left wards)
  <-> a ∈ left
      /\ exists w, w ∈ wards /\ ward_id w = wid
                   /\ within (geom a) (w_geometry w) = true.
Proof.
  rewrite dropna_sjoin, elem_of_concat. split.
  - intros (l & Hl & Hrow).
    apply list_elem_of_fmap in Hrow as (a' & -> & Ha').
    apply list_elem_of_fmap in Hl as (w & [= -> ->] & Hw).
    apply list_elem_of_filter in Hw as [Hwithin Hw].
    split; [exact Ha'|]. exists w. split; [exact Hw|].
    split; [reflexivity|]. now apply Is_true_eq_true.
  - intros (Ha & w & Hw & <- & Hwithin).
    exists (map (fun w => (a, ward_id w)) (wards_around wards (geom a))).
    split.
    + apply list_elem_of_fmap. exists w. split; [reflexivity|].
      apply list_elem_of_filter. split; [|exact Hw].
      now apply Is_true_eq_left.
    + apply list_elem_of_fmap. exists a. split; [reflexivity|exact Ha].
Qed.

End JoinMoreFacts.

(** ** The ward-by-tree-type table *)

Section TreeTableFacts.
Context `{GS : GeoStack}.

Lemma key_le_total : Total key_le.
Proof.
  intros [w1 t1] [w2 t2]. unfold key_le. simpl.
  destruct (Z.lt_trichotomy w1 w2) as [?|[->|?]];
    [left; now left| |right; now left].
  destruct (String.leb_total t1 t2); [left|right]; right; auto.
Qed.

Lemma tree_counts_row_keys (tw : list (tree * option Z)) :
  map row_key (tree_counts tw)
  = merge_sort key_le
      (remove_dups (map (fun r => (r.2, tree_type r.1)) (dropna tw))).
Proof.
  unfold tree_counts. rewrite map_map, <- groupby_size_keys.
  apply map_ext. intros [[wid t] c]. reflexivity.
Qed.

(** X9: the ward-by-tree-type table has at most one row per (ward
    identifier, tree type) pair, its rows stand in the order of their
    keys, and a pair has a row exactly when some tree of that type lies
    within some ward with that identifier. *)
Theorem tree_counts_table (trees : list tree) (wards : list ward) :
  let tc := tree_counts (sjoin_within t_geometry trees wards) in
  NoDup (map row_key tc)
  /\ Sorted key_le (map row_key tc)
  /\ forall wid ty,
       (wid, ty) ∈ map row_key tc
       <-> exists t w,
             t ∈ trees /\ w ∈ wards /\ ward_id w = wid /\ tree_type t = ty
             /\ within (t_geometry t) (w_geometry w) = true.
Proof.
  simpl. rewrite tree_counts_row_keys.
  split; [apply groupby_keys_NoDup|].
  split; [apply Sorted_merge_sort, key_le_total|].
  intros wid ty. rewrite groupby_keys_elem, list_elem_of_fmap. split.
  - intros ([t wid'] & [= -> ->] & Hin). simpl.
    apply elem_of_dropna_sjoin in Hin as (Ht & w & Hw & Hid & Hwithin).
    exists t, w. auto.
  - intros (t & w & Ht & Hw & Hid & Hty & Hwithin).
    exists (t, wid). split; [simpl; now rewrite Hty|].
    apply elem_of_dropna_sjoin. split; [exact Ht|]. exists w. auto.
Qed.

End TreeTableFacts.

(** ** The stages after the clip *)

Section AfterClipFacts.
Context `{GS : GeoStack}.





(** X7: the [avg_elev] of an exported ward is what the [try] statement
    stores for a ward with the same identifier, reprojected to the
    reference system of the clipped raster and masked on that raster;
    it is the value of the ward itself when the identifiers are pairwise
    distinct. *)
Theorem exported_avg_elev (simp : Geometry -> Geometry) (fs : filesystem)
    (out : outputs) :
  (pipeline_with simp fs).2 = Ok out ->
  exists wards c,
    load_wards fs = Ok wards
    /\ r_crs (dem_clipped_tif out) = Some c
    /\ Forall2 (fun w o =>
                  exists w', w' ∈ wards /\ ward_id w' = ward_id w
                    /\ o_avg_elev o
                       = ward_mean (dem_clipped_tif out) (ward_in_crs c w'))
               wards (wards_geojson out)
    /\ (NoDup (map ward_id wards) ->
        Forall2 (fun w o =>
                   o_avg_elev o
                   = ward_mean (dem_clipped_tif out) (ward_in_crs c w))
                wards (wards_geojson out)).
Proof.
  intros Hrun.
  destruct (pipeline_ok_inv _ _ _ Hrun)
    as (wards & trees & schools & Hw & _ & _ & Hp).
  destruct (process_ok_inv _ _ _ _ _ _ Hp)
    as (dem & avg & _ & Hz & -> & _ & _ & _ & -> & _).
  destruct (zonal_stats_ok_inv _ _ _ Hz) as (c & Hc & _ & ->).
  destruct (avg_elevs_entries dem c wards) as [Hsome Hexact].
  exists wards, c. split; [exact Hw|]. split; [exact Hc|]. split.
  - apply exported_rows. eapply Forall_impl; [exact Hsome|].
    intros w (w' & Hin & Hid & Hv). exists w'. simpl.
    unfold avg_elev. rewrite Hv. auto.
  - intros Hnd. apply exported_rows.
    eapply Forall_impl; [exact (Hexact Hnd)|].
    intros w Hv. simpl. unfold avg_elev. now rewrite Hv.
Qed.

End AfterClipFacts.


(** [Demo.fs1]: the first ward averages 900 and 910, the second ward
    has no valid cell. *)
Lemma exported_avg_elev_witness :
  exists out,
    (pipeline_with (GS := Demo.stack) (Demo.gsimplify SIMPLIFY_TOLERANCE)
                   Demo.fs1).2 = Ok out
    /\ map o_avg_elev (wards_geojson out) = [Some 905%float; None]
    /\ exists wards c,
         load_wards Demo.fs1 = Ok wards
         /\ NoDup (map ward_id wards)
         /\ Forall2 (fun w o =>
                       o_avg_elev o
                       = ward_mean (dem_clipped_tif out) (ward_in_crs c w))
                    wards (wards_geojson out).
Proof.
  destruct (pipeline_with (GS := Demo.stack)
              (Demo.gsimplify SIMPLIFY_TOLERANCE) Demo.fs1).2
    as [out|e] eqn:Hrun; [|vm_compute in Hrun; discriminate].
  exists out. split; [reflexivity|].
  split; [vm_compute in Hrun; injection Hrun as <-; vm_compute; reflexivity|].
  destruct (exported_avg_elev _ _ _ Hrun) as (wards & c & Hw & _ & _ & Hexact).
  exists wards, c. split; [exact Hw|].
  assert (Hnd : NoDup (map ward_id wards)).
  { vm_compute in Hw. injection Hw as <-.
    apply (bool_decide_unpack _). vm_compute. exact I. }
  split; [exact Hnd|]. exact (Hexact Hnd).
Defined.

(** ** Wards without school or tree, and the decoded distribution *)

Section EmptyStatFacts.
Context `{GS : GeoStack}.

Lemma dumps_empty (d : PyDict.t Z) : Json.dumps d = "{}" <-> d = [].
Proof.
  split; [|intros ->; reflexivity].
  intros Hd. apply (f_equal String.length) in Hd.
  unfold Json.dumps in Hd. rewrite !string_length_app in Hd. simpl in Hd.
  pose proof (join_items_length d) as Hlen.
  destruct d as [|kv d]; [reflexivity|].
  change (length (kv :: d)) with (S (length d)) in Hlen. lia.
Qed.

Lemma ward_group_empty (tc : list count_row) (wid : Z) :
  ward_group tc wid = [] <-> wid ∉ map c_ward_id tc.
Proof.
  split; [|apply ward_group_nil].
  unfold ward_group. intros Hnil Hin.
  apply list_elem_of_fmap in Hin as (r & -> & Hr).
  assert (Hr' : r ∈ filter (fun r' => c_ward_id r' = c_ward_id r) tc)
    by (apply list_elem_of_filter; auto).
  rewrite Hnil in Hr'. now apply not_elem_of_nil in Hr'.
Qed.

(** A ward identifier occurs in the table exactly when some tree lies
    within some ward that carries it. *)
Lemma tree_counts_ward_ids (trees : list tree) (wards : list ward) (wid : Z) :
  wid ∈ map c_ward_id (tree_counts (sjoin_within t_geometry trees wards))
  <-> exists t w, t ∈ trees /\ w ∈ wards /\ ward_id w = wid
                  /\ within (t_geometry t) (w_geometry w) = true.
Proof.
  split.
  - intros Hin. apply list_elem_of_fmap in Hin as (r & -> & Hr).
    assert (Hkey : row_key r
                   ∈ map row_key
                       (tree_counts (sjoin_within t_geometry trees wards)))
      by (apply list_elem_of_fmap; eauto).
    rewrite tree_counts_row_keys, groupby_keys_elem in Hkey.
    apply list_elem_of_fmap in Hkey as ([t wid'] & Hk & Hin).
    unfold row_key in Hk. simpl in Hk. injection Hk as Hw _.
    apply elem_of_dropna_sjoin in Hin as (Ht & w & Hw' & Hid & Hwithin).
    exists t, w. repeat split; auto. congruence.
  - intros (t & w & Ht & Hw & Hid & Hwithin).
    assert (Hkey : (wid, tree_type t)
                   ∈ map row_key
                       (tree_counts (sjoin_within t_geometry trees wards))).
    { rewrite tree_counts_row_keys, groupby_keys_elem.
      apply list_elem_of_fmap. exists (t, wid). split; [reflexivity|].
      apply elem_of_dropna_sjoin. split; [exact Ht|]. exists w. auto. }
    apply list_elem_of_fmap in Hkey as (r & Hk & Hr).
    apply list_elem_of_fmap. exists r. split; [|exact Hr].
    unfold row_key in Hk. now injection Hk as -> _.
Qed.

Lemma tree_dist_pairs (tw : list (tree * option Z)) (wid : Z) :
  tree_dist (ward_tree_dict (tree_counts tw)) wid
  = Json.dumps (map (fun r => (c_tree_type r, c_count r))
                    (ward_group (tree_counts tw) wid)).
Proof.
  unfold tree_dist. rewrite ward_tree_dict_get. f_equal.
  apply of_pairs_NoDup. unfold PyDict.keys. rewrite map_map. simpl.
  apply ward_group_types_NoDup, tree_counts_keys_NoDup.
Qed.

Lemma occurrences_none (ids : list Z) (wid : Z) :
  Z.of_nat (length (filter (fun i => i = wid) ids)) = 0 <-> wid ∉ ids.
Proof.
  split.
  - intros Hzero Hin. pose proof (occurrences_positive wid ids Hin). lia.
  - intros Hout. now rewrite occurrences_zero.
Qed.

(** X12: an exported ward has [num_schools = 0] exactly when no school
    lies within a ward that carries its identifier, and its [tree_dist]
    is the empty object exactly when no tree does. *)
Theorem empty_statistics (simp : Geometry -> Geometry) (fs : filesystem)
    (out : outputs) :
  (pipeline_with simp fs).2 = Ok out ->
  exists wards trees schools,
    load_wards fs = Ok wards
    /\ (load_trees fs).2 = Ok trees
    /\ load_schools fs = Ok schools
    /\ Forall (fun o =>
                 (o_num_schools o = 0
                  <-> ~ exists s w,
                          s ∈ schools /\ w ∈ wards
                          /\ ward_id w = o_ward_id o
                          /\ within (geometry s) (w_geometry w) = true)
                 /\ (o_tree_dist o = "{}"
                     <-> ~ exists t w,
                             t ∈ trees /\ w ∈ wards
                             /\ ward_id w = o_ward_id o
                             /\ within (t_geometry t) (w_geometry w) = true))
              (wards_geojson out).
Proof.
  intros Hrun.
  destruct (pipeline_ok_inv _ _ _ Hrun)
    as (wards & trees & schools & Hw & Ht & Hs & Hp).
  destruct (process_ok_inv _ _ _ _ _ _ Hp)
    as (dem & avg & _ & _ & _ & _ & _ & _ & -> & _).
  exists wards, trees, schools. repeat (split; [assumption|]).
  unfold simplify_wards, attach_stats. rewrite map_map.
  apply Forall_fmap, Forall_forall. intros w0 _. simpl. split.
  - unfold school_counts. rewrite num_schools_occurrences, occurrences_none.
    split.
    + intros Hout (s & w & Hs' & Hw' & Hid & Hwithin). apply Hout.
      apply list_elem_of_fmap. exists (s, ward_id w0). split; [reflexivity|].
      apply elem_of_dropna_sjoin. split; [exact Hs'|]. exists w. auto.
    + intros Hnone Hin. apply Hnone.
      apply list_elem_of_fmap in Hin as ([s wid] & Hk & Hin). simpl in Hk.
      subst wid.
      apply elem_of_dropna_sjoin in Hin as (Hs' & w & Hw' & Hid & Hwithin).
      exists s, w. auto.
  - rewrite tree_dist_pairs, dumps_empty. split.
    + intros Hnil Hex. apply map_eq_nil in Hnil.
      apply ward_group_empty in Hnil. apply Hnil.
      now apply tree_counts_ward_ids.
    + intros Hnone.
      replace (ward_group _ _) with (@nil count_row); [reflexivity|].
      symmetry. apply ward_group_empty. intros Hin. apply Hnone.
      now apply tree_counts_ward_ids.
Qed.

(** X10: decoding the [tree_dist] of an exported ward gives the
    dictionary of the rows that [ward_tree_counts.csv] holds for the
    ward's identifier: the same tree types, in the order of the rows,
    each with its count. *)
Theorem tree_dist_decodes_to_rows (simp : Geometry -> Geometry)
    (fs : filesystem) (out : outputs) :
  (pipeline_with simp fs).2 = Ok out ->
  Forall (fun o =>
            Json.loads (o_tree_dist o)
            = Some (map (fun r => (c_tree_type r, c_count r))
                        (ward_group (ward_tree_counts_csv out)
                                    (o_ward_id o))))
         (wards_geojson out).
Proof.
  intros Hrun.
  destruct (pipeline_ok_inv _ _ _ Hrun)
    as (wards & trees & schools & _ & _ & _ & Hp).
  destruct (process_ok_inv _ _ _ _ _ _ Hp)
    as (dem & avg & _ & _ & _ & _ & _ & -> & -> & _).
  unfold simplify_wards, attach_stats. rewrite map_map.
  apply Forall_fmap, Forall_forall. intros w _. simpl.
  rewrite tree_dist_pairs, loads_dumps. f_equal.
  apply of_pairs_NoDup. unfold PyDict.keys. rewrite map_map. simpl.
  apply ward_group_types_NoDup, tree_counts_keys_NoDup.
Qed.

End EmptyStatFacts.

(** [Demo.fs_edge]: the one tree lies on the common edge of the two
    wards, within neither, so both distributions are empty; each ward
    has a school. *)
Lemma empty_statistics_witness :
  exists out,
    (pipeline_with (GS := Demo.stack) (Demo.gsimplify SIMPLIFY_TOLERANCE)
                   Demo.fs_edge).2 = Ok out
    /\ map o_num_schools (wards_geojson out) = [2; 1]
    /\ map o_tree_dist (wards_geojson out) = ["{}"; "{}"]
    /\ exists wards trees schools,
         load_wards Demo.fs_edge = Ok wards
         /\ (load_trees Demo.fs_edge).2 = Ok trees
         /\ load_schools Demo.fs_edge = Ok schools
         /\ Forall (fun o =>
                      (o_num_schools o = 0
                       <-> ~ exists s w,
                               s ∈ schools /\ w ∈ wards
                               /\ ward_id w = o_ward_id o
                               /\ within (geometry s) (w_geometry w) = true)
                      /\ (o_tree_dist o = "{}"
                          <-> ~ exists t w,
                                  t ∈ trees /\ w ∈ wards
                                  /\ ward_id w = o_ward_id o
                                  /\ within (t_geometry t) (w_geometry w)
                                     = true))
                   (wards_geojson out).
Proof.
  destruct (pipeline_with (GS := Demo.stack)
              (Demo.gsimplify SIMPLIFY_TOLERANCE) Demo.fs_edge).2
    as [out|e] eqn:Hrun; [|vm_compute in Hrun; discriminate].
  exists out. split; [reflexivity|].
  split; [vm_compute in Hrun; injection Hrun as <-; vm_compute; reflexivity|].
  split; [vm_compute in Hrun; injection Hrun as <-; vm_compute; reflexivity|].
  exact (empty_statistics _ _ _ Hrun).
Defined.

(** [Demo.fs1]: two trees of one species in the first ward, one tree
    in the second. *)
Lemma tree_dist_decodes_to_rows_witness :
  exists out,
    (pipeline_with (GS := Demo.stack) (Demo.gsimplify SIMPLIFY_TOLERANCE)
                   Demo.fs1).2 = Ok out
    /\ map (fun o => Json.loads (o_tree_dist o)) (wards_geojson out)
       = [Some [("Neem", 2)]; Some [("Peepal", 1)]]
    /\ Forall (fun o =>
                 Json.loads (o_tree_dist o)
                 = Some (map (fun r => (c_tree_type r, c_count r))
                             (ward_group (ward_tree_counts_csv out)
                                         (o_ward_id o))))
              (wards_geojson out).
Proof.
  destruct (pipeline_with (GS := Demo.stack)
              (Demo.gsimplify SIMPLIFY_TOLERANCE) Demo.fs1).2
    as [out|e] eqn:Hrun; [|vm_compute in Hrun; discriminate].
  exists out. split; [reflexivity|].
  split; [vm_compute in Hrun; injection Hrun as <-; vm_compute; reflexivity|].
  exact (tree_dist_decodes_to_rows _ _ _ Hrun).
Defined.

(** ** Ward names *)

Section WardNameFacts.
Context `{GS : GeoStack}.

Lemma string_app_nil_r (s : string) : s ++ "" = s.
Proof.
  induction s as [|c s IH]; [reflexivity|].
  change (String c s ++ "") with (String c (s ++ "")). now rewrite IH.
Qed.

Lemma map_eq_Forall {A B} (f g : A -> B) (l : list A) :
  map f l = map g l -> Forall (fun a => f a = g a) l.
Proof.
  induction l as [|a l IH]; [constructor|].
  simpl. intros [= Ha Hl]. constructor; auto.
Qed.

Lemma string_app_inv_head (p s1 s2 : string) :
  p ++ s1 = p ++ s2 -> s1 = s2.
Proof.
  induction p as [|c p IH]; [auto|].
  change (String c p ++ s1) with (String c (p ++ s1)).
  change (String c p ++ s2) with (String c (p ++ s2)).
  intros [= Heq]. auto.
Qed.

(** [str] gives distinct integers distinct texts. *)
Lemma of_int_inj (a b : Z) : PyStr.of_int a = PyStr.of_int b -> a = b.
Proof.
  intros Heq.
  pose proof (scan_int_of_int a "" I) as Ha.
  pose proof (scan_int_of_int b "" I) as Hb.
  rewrite string_app_nil_r in Ha, Hb. rewrite Heq in Ha. congruence.
Qed.

(** X1: when the ward file has no name column, every ward is named
    after its identifier, and wards with distinct identifiers have
    distinct names; when it has the column, the names are its cells, a
    missing cell included: the fallback is taken for the file, not for
    a row. *)
Theorem ward_names (fs : filesystem) (wards : list ward) :
  load_wards fs = Ok wards ->
  exists gdf,
    fs !! WARDS_RAW = Some (VectorFile gdf)
    /\ (has_column "KGISWardName" gdf = false ->
        Forall (fun w => ward_name w
                         = CStr ("Ward " ++ PyStr.of_int (ward_id w))) wards
        /\ (NoDup (map ward_id wards) -> NoDup (map ward_name wards)))
    /\ (has_column "KGISWardName" gdf = true ->
        map ward_name wards
        = map (fun f => col f "KGISWardName") (features gdf)).
Proof.
  intros Hload.
  destruct (load_wards_ok_inv _ _ Hload)
    as (gdf & c & Hfs & _ & _ & Hnames & _).
  exists gdf. split; [exact Hfs|]. split; intros Hcol; rewrite Hcol in Hnames.
  - rewrite map_map in Hnames. split.
    + now apply map_eq_Forall in Hnames.
    + intros Hnd.
      rewrite Hnames,
        <- (map_map ward_id (fun i => CStr ("Ward " ++ PyStr.of_int i))).
      apply NoDup_fmap_2_strong; [|exact Hnd].
      intros a b _ _ [= Hab].
      now apply string_app_inv_head, of_int_inj in Hab.
  - exact Hnames.
Qed.

End WardNameFacts.

(** [Demo.fs1]: the ward file has no attribute column. *)
Lemma ward_names_witness :
  load_wards Demo.fs1 = Ok Demo.wards1
  /\ map ward_name Demo.wards1 = [CStr "Ward 1"; CStr "Ward 2"]
  /\ NoDup (map ward_name Demo.wards1).
Proof.
  assert (Hload : load_wards Demo.fs1 = Ok Demo.wards1)
    by (vm_compute; reflexivity).
  split; [exact Hload|]. split; [reflexivity|].
  destruct (ward_names Demo.fs1 Demo.wards1 Hload) as (gdf & Hfs & Hnone & _).
  assert (Hfile : Demo.fs1 !! WARDS_RAW = Some Demo.two_wards)
    by (vm_compute; reflexivity).
  rewrite Hfile in Hfs. injection Hfs as <-.
  apply Hnone; [reflexivity|].
  apply (bool_decide_unpack _). vm_compute. exact I.
Defined.

(** ** Totals across the two tree outputs *)

Section TotalFacts.
Context `{GS : GeoStack}.

Lemma sumZ_plus {A} (f g : A -> Z) (l : list A) :
  sumZ (map (fun a => f a + g a) l) = sumZ (map f l) + sumZ (map g l).
Proof. unfold sumZ. induction l as [|a l IH]; simpl; lia. Qed.

Lemma sumZ_at (k c : Z) (ids : list Z) :
  NoDup ids -> k ∈ ids ->
  sumZ (map (fun i => if decide (k = i) then c else 0) ids) = c.
Proof.
  unfold sumZ. induction 1 as [|i ids Hfresh Hnd IH]; intros Hin.
  - now apply not_elem_of_nil in Hin.
  - simpl. apply elem_of_cons in Hin as [->|Hin].
    + rewrite decide_True by reflexivity.
      assert (Hrest : foldr Z.add 0
                        (map (fun j => if decide (i = j) then c else 0) ids)
                      = 0).
      { clear IH Hnd. induction ids as [|j ids IH]; [reflexivity|].
        apply not_elem_of_cons in Hfresh as [Hne Hfresh]. simpl.
        rewrite decide_False by exact Hne. now rewrite IH. }
      lia.
    + rewrite decide_False by (intros ->; contradiction).
      now rewrite IH.
Qed.

(** The groups of distinct identifiers that cover the table split its
    total. *)
Lemma group_totals (tc : list count_row) (ids : list Z) :
  NoDup ids -> Forall (fun r => c_ward_id r ∈ ids) tc ->
  sumZ (map (fun i => total_count (ward_group tc i)) ids) = total_count tc.
Proof.
  intros Hnd. induction 1 as [|r tc Hr _ IH].
  - unfold ward_group, total_count, sumZ. simpl.
    induction ids as [|i ids IHi]; [reflexivity|].
    simpl. apply NoDup_cons in Hnd as [_ Hnd]. now rewrite IHi.
  - transitivity
      (sumZ (map (fun i => (if decide (c_ward_id r = i) then c_count r else 0)
                           + total_count (ward_group tc i)) ids)).
    + f_equal. apply map_ext. intros i. unfold ward_group.
      rewrite filter_cons.
      destruct (decide (c_ward_id r = i)) as [Heq|Hne]; reflexivity.
    + rewrite sumZ_plus, sumZ_at, IH by assumption. reflexivity.
Qed.

(** X13: every row of [ward_tree_counts.csv] carries the identifier of
    a ward of the ward set; and when the identifiers are pairwise
    distinct, the [tree_dist] objects of the exported wards decode to
    totals that add up to the sum of the [count] column. *)
Theorem tree_dist_totals_add_up (simp : Geometry -> Geometry)
    (fs : filesystem) (out : outputs) :
  (pipeline_with simp fs).2 = Ok out ->
  exists wards,
    load_wards fs = Ok wards
    /\ Forall (fun r => c_ward_id r ∈ map ward_id wards)
              (ward_tree_counts_csv out)
    /\ (NoDup (map ward_id wards) ->
        exists totals,
          map (fun o => PyDict.sum_values <$> Json.loads (o_tree_dist o))
              (wards_geojson out) = map Some totals
          /\ sumZ totals = total_count (ward_tree_counts_csv out)).
Proof.
  intros Hrun.
  destruct (pipeline_ok_inv _ _ _ Hrun)
    as (wards & trees & schools & Hw & _ & _ & Hp).
  destruct (process_ok_inv _ _ _ _ _ _ Hp)
    as (dem & avg & _ & _ & _ & _ & _ & -> & -> & _).
  exists wards. split; [exact Hw|].
  assert (Hrows : Forall (fun r => c_ward_id r ∈ map ward_id wards)
                         (tree_counts (sjoin_within t_geometry trees wards))).
  { apply Forall_forall. intros r Hr.
    assert (Hin : c_ward_id r
                  ∈ map c_ward_id
                      (tree_counts (sjoin_within t_geometry trees wards)))
      by (apply list_elem_of_fmap; eauto).
    apply tree_counts_ward_ids in Hin as (t & w & _ & Hin & <- & _).
    apply list_elem_of_fmap. eauto. }
  split; [exact Hrows|]. intros Hnd.
  set (tc := tree_counts (sjoin_within t_geometry trees wards)) in *.
  exists (map (fun w => total_count (ward_group tc (ward_id w))) wards).
  split.
  - unfold simplify_wards, attach_stats. rewrite !map_map.
    apply map_ext. intros w. simpl. apply tree_dist_sum.
  - rewrite <- (map_map ward_id (fun i => total_count (ward_group tc i))).
    now apply group_totals.
Qed.

End TotalFacts.

(** [Demo.fs1]: three trees lie within a ward, two in the first and one
    in the second. *)
Lemma tree_dist_totals_add_up_witness :
  exists out,
    (pipeline_with (GS := Demo.stack) (Demo.gsimplify SIMPLIFY_TOLERANCE)
                   Demo.fs1).2 = Ok out
    /\ total_count (ward_tree_counts_csv out) = 3
    /\ exists wards totals,
         load_wards Demo.fs1 = Ok wards
         /\ NoDup (map ward_id wards)
         /\ map (fun o => PyDict.sum_values <$> Json.loads (o_tree_dist o))
                (wards_geojson out) = map Some totals
         /\ sumZ totals = total_count (ward_tree_counts_csv out).
Proof.
  destruct (pipeline_with (GS := Demo.stack)
              (Demo.gsimplify SIMPLIFY_TOLERANCE) Demo.fs1).2
    as [out|e] eqn:Hrun; [|vm_compute in Hrun; discriminate].
  exists out. split; [reflexivity|].
  split; [vm_compute in Hrun; injection Hrun as <-; vm_compute; reflexivity|].
  destruct (tree_dist_totals_add_up _ _ _ Hrun) as (wards & Hw & _ & Hsum).
  assert (Hnd : NoDup (map ward_id wards)).
  { vm_compute in Hw. injection Hw as <-.
    apply (bool_decide_unpack _). vm_compute. exact I. }
  destruct (Hsum Hnd) as (totals & Hdec & Htot).
  exists wards, totals. auto.
Defined.
